(** * Payment settlement and license activation (ReelMind backend, app.py)

    A shallow embedding of the gateway-signature code, the order-creation
    endpoint, the gateway webhook, the refund coordinator and the
    activation-link redemption endpoint of [app.py], with the properties of
    the specification stated over it.

    Conventions of the embedding.
    - A Python [str] is a Rocq [string] holding its UTF-8 bytes.  [lower],
      [upper], [strip], [isalnum] and [isspace] act on ASCII letters, digits
      and white space only, so the embedding is exact on strings whose cased
      letters and white space are ASCII, as the gateway's field names, the
      identifiers and the configured secrets are.
    - A Python [dict] is an association list in insertion order with
      pairwise distinct keys; a database table keyed by a unique column is a
      [gmap].
    - Every SQL statement is one atomic step on the store (the PostgreSQL
      connection of [get_db_connection] is opened in autocommit mode).
    - Instants are integers: microseconds (the resolution of Python's
      [datetime]) on the Taiwan wall clock. *)

From Stdlib Require Import ZArith List Ascii String Bool Lia Permutation.
From Stdlib Require Import DecimalString.
From stdpp Require Import gmap strings list fin_maps.
Import ListNotations.
Local Open Scope Z_scope.

(* ===================================================================== *)
(** * Python string primitives *)
(* ===================================================================== *)

Module Py.

Definition code (c : ascii) : Z := Z.of_N (N_of_ascii c).
Definition chr (z : Z) : ascii := ascii_of_N (Z.to_N z).

Definition bytes_of (s : string) : list Z := map code (list_ascii_of_string s).

Definition is_upper (c : ascii) : bool := (65 <=? code c) && (code c <=? 90).
Definition is_lower (c : ascii) : bool := (97 <=? code c) && (code c <=? 122).
Definition is_digit (c : ascii) : bool := (48 <=? code c) && (code c <=? 57).
Definition isalnum (c : ascii) : bool := is_upper c || is_lower c || is_digit c.

(** [c.isspace()] on the ASCII range. *)
Definition isspace (c : ascii) : bool :=
  ((9 <=? code c) && (code c <=? 13)) || ((28 <=? code c) && (code c <=? 32)).

Definition lower_char (c : ascii) : ascii :=
  if is_upper c then chr (code c + 32) else c.
Definition upper_char (c : ascii) : ascii :=
  if is_lower c then chr (code c - 32) else c.

Fixpoint map_string (f : ascii -> ascii) (s : string) : string :=
  match s with
  | EmptyString => EmptyString
  | String c r => String (f c) (map_string f r)
  end.

(** [s.lower()], [s.upper()] *)
Definition lower (s : string) : string := map_string lower_char s.
Definition upper (s : string) : string := map_string upper_char s.

Fixpoint lstrip (s : string) : string :=
  match s with
  | EmptyString => EmptyString
  | String c r => if isspace c then lstrip r else s
  end.

Fixpoint rev_string (acc s : string) : string :=
  match s with
  | EmptyString => acc
  | String c r => rev_string (String c acc) r
  end.

(** [s.strip()] *)
Definition strip (s : string) : string :=
  rev_string EmptyString (lstrip (rev_string EmptyString (lstrip s))).

(** Truth value of a [str]: the empty string is falsy. *)
Definition truthy (s : string) : bool := negb (String.eqb s EmptyString).

(** [sep.join(parts)] *)
Fixpoint join (sep : string) (parts : list string) : string :=
  match parts with
  | [] => EmptyString
  | [p] => p
  | p :: rest => p +:+ sep +:+ join sep rest
  end.

Fixpoint drop (n : nat) (s : string) : string :=
  match n, s with
  | O, _ => s
  | S k, String _ r => drop k r
  | S _, EmptyString => EmptyString
  end.

(** [s.replace(old, new)] for a non-empty [old]: occurrences are replaced
    from the left and do not overlap.  [skip] counts the characters of a
    match that are still to be passed over. *)
Fixpoint replace_from (old new : string) (skip : nat) (s : string) : string :=
  match s with
  | EmptyString => EmptyString
  | String c r =>
      match skip with
      | S k => replace_from old new k r
      | O =>
          if String.prefix old s
          then new +:+ replace_from old new (String.length old - 1) r
          else String c (replace_from old new O r)
      end
  end.

Definition replace (old new s : string) : string := replace_from old new O s.

Definition hex_digit_upper (d : Z) : ascii :=
  if d <? 10 then chr (48 + d) else chr (55 + d).

(** [str(n)] for an [int]. *)
Definition str_of_int (n : Z) : string := NilZero.string_of_int (Z.to_int n).

(** urllib's [quote_plus] with the default empty [safe]: letters, digits and
    [_.-~] stay, a space becomes [+], any other byte becomes [%XX] with
    upper-case hexadecimal digits. *)
Definition unreserved (c : ascii) : bool :=
  isalnum c || (code c =? 95) || (code c =? 46) || (code c =? 45) || (code c =? 126).

Fixpoint quote_plus (s : string) : string :=
  match s with
  | EmptyString => EmptyString
  | String c r =>
      if unreserved c then String c (quote_plus r)
      else if code c =? 32 then String "+"%char (quote_plus r)
      else String "%"%char
             (String (hex_digit_upper (code c / 16))
                (String (hex_digit_upper (code c mod 16)) (quote_plus r)))
  end.

(** [quote(s, safe='')]: as [quote_plus], but a space becomes [%20]. *)
Fixpoint quote (s : string) : string :=
  match s with
  | EmptyString => EmptyString
  | String c r =>
      if unreserved c then String c (quote r)
      else String "%"%char
             (String (hex_digit_upper (code c / 16))
                (String (hex_digit_upper (code c mod 16)) (quote r)))
  end.

(** [sub in s] *)
Fixpoint contains (sub s : string) : bool :=
  String.prefix sub s ||
  match s with
  | EmptyString => false
  | String _ r => contains sub r
  end.

(** [len(s)]: the number of code points, that is of bytes that are not
    UTF-8 continuation bytes. *)
Fixpoint len (s : string) : Z :=
  match s with
  | EmptyString => 0
  | String c r => (if Z.land (code c) 0xC0 =? 0x80 then 0 else 1) + len r
  end.

Fixpoint forallb_string (p : ascii -> bool) (s : string) : bool :=
  match s with
  | EmptyString => true
  | String c r => p c && forallb_string p r
  end.

(** [s[:n]] and [s[-n:]] on ASCII strings. *)
Fixpoint first_n (n : nat) (s : string) : string :=
  match n, s with
  | S k, String c r => String c (first_n k r)
  | _, _ => EmptyString
  end.

Definition last_n (n : nat) (s : string) : string :=
  drop (String.length s - n) s.

Fixpoint zeros (n : nat) : string :=
  match n with
  | O => EmptyString
  | S k => String "0"%char (zeros k)
  end.

(** [s.zfill(width)]: zeros go after a leading sign. *)
Definition zfill (width : nat) (s : string) : string :=
  let fill := zeros (width - String.length s) in
  match s with
  | String c r =>
      if (code c =? 43) || (code c =? 45) then String c (fill +:+ r) else fill +:+ s
  | EmptyString => fill
  end.

(** [re.match(r'^[set]+$', s)]: [$] also matches before one final newline. *)
Definition chop_newline (s : string) : string :=
  match rev_string EmptyString s with
  | String c r => if code c =? 10 then rev_string EmptyString r else s
  | EmptyString => s
  end.

Definition match_plus (p : ascii -> bool) (s : string) : bool :=
  let body := chop_newline s in
  truthy body && forallb_string p body.

End Py.

(* ===================================================================== *)
(** * hashlib.sha256 (FIPS 180-4) on byte strings *)
(* ===================================================================== *)

Module Sha256.

Definition mask32 : Z := 0xFFFFFFFF.
Definition wrap (x : Z) : Z := Z.land x mask32.
Definition add32 (x y : Z) : Z := wrap (x + y).
Definition rotr (n x : Z) : Z :=
  Z.lor (Z.shiftr x n) (wrap (Z.shiftl x (32 - n))).
Definition not32 (x : Z) : Z := Z.lxor x mask32.

Definition Ch (x y z : Z) : Z := Z.lxor (Z.land x y) (Z.land (not32 x) z).
Definition Maj (x y z : Z) : Z :=
  Z.lxor (Z.lxor (Z.land x y) (Z.land x z)) (Z.land y z).
Definition Sigma0 (x : Z) : Z := Z.lxor (Z.lxor (rotr 2 x) (rotr 13 x)) (rotr 22 x).
Definition Sigma1 (x : Z) : Z := Z.lxor (Z.lxor (rotr 6 x) (rotr 11 x)) (rotr 25 x).
Definition sigma0 (x : Z) : Z := Z.lxor (Z.lxor (rotr 7 x) (rotr 18 x)) (Z.shiftr x 3).
Definition sigma1 (x : Z) : Z := Z.lxor (Z.lxor (rotr 17 x) (rotr 19 x)) (Z.shiftr x 10).

(** The constants of FIPS 180-4, section 4.2.2 and 5.3.3: the first 32 bits
    of the fractional parts of the cube roots (for [K]) and of the square
    roots (for [H0]) of the first primes. *)
Definition primes : list Z :=
  [ 2; 3; 5; 7; 11; 13; 17; 19; 23; 29; 31; 37; 41; 43; 47; 53;
    59; 61; 67; 71; 73; 79; 83; 89; 97; 101; 103; 107; 109; 113; 127; 131;
    137; 139; 149; 151; 157; 163; 167; 173; 179; 181; 191; 193; 197; 199; 211; 223;
    227; 229; 233; 239; 241; 251; 257; 263; 269; 271; 277; 281; 283; 293; 307; 311 ].

(** The largest [r] between [lo] and [hi] with [r * r * r <= n]. *)
Fixpoint cube_root_between (fuel : nat) (n lo hi : Z) : Z :=
  match fuel with
  | O => lo
  | S k =>
      let mid := (lo + hi) / 2 in
      if mid * mid * mid <=? n then cube_root_between k n mid hi
      else cube_root_between k n lo mid
  end.

Definition cube_root_bits (p : Z) : Z :=
  wrap (cube_root_between 40 (p * 2 ^ 96) 0 (2 ^ 35)).

Definition square_root_bits (p : Z) : Z := wrap (Z.sqrt (p * 2 ^ 64)).

Definition K : list Z := Eval vm_compute in map cube_root_bits primes.

Definition H0 : list Z := Eval vm_compute in map square_root_bits (firstn 8 primes).

(** Big-endian rendering of [x] on [n] bytes. *)
Fixpoint be_bytes (n : nat) (x : Z) : list Z :=
  match n with
  | O => []
  | S k => Z.land (Z.shiftr x (8 * Z.of_nat k)) 0xFF :: be_bytes k x
  end.

Definition pad (msg : list Z) : list Z :=
  let len := Z.of_nat (length msg) in
  msg ++ [0x80] ++ repeat 0 (Z.to_nat ((55 - len) mod 64)) ++ be_bytes 8 (8 * len).

Fixpoint be_words (n : nat) (bs : list Z) : list Z :=
  match n, bs with
  | S k, b0 :: b1 :: b2 :: b3 :: rest =>
      (b0 * 16777216 + b1 * 65536 + b2 * 256 + b3) :: be_words k rest
  | _, _ => []
  end.

(** The message schedule, most recent word first: [extend n ws] adds [n]
    words to the 16 words of a block held in reverse. *)
Fixpoint extend (n : nat) (rev_ws : list Z) : list Z :=
  match n with
  | O => rev_ws
  | S k =>
      let w := add32 (add32 (sigma1 (nth 1 rev_ws 0)) (nth 6 rev_ws 0))
                     (add32 (sigma0 (nth 14 rev_ws 0)) (nth 15 rev_ws 0)) in
      extend k (w :: rev_ws)
  end.

Definition schedule (block_words : list Z) : list Z :=
  rev (extend 48 (rev block_words)).

Record regs := Regs { ra : Z; rb : Z; rc : Z; rd : Z; re : Z; rf : Z; rg : Z; rh : Z }.

Definition round (s : regs) (kw : Z * Z) : regs :=
  let t1 := add32 (add32 (add32 (rh s) (Sigma1 (re s))) (Ch (re s) (rf s) (rg s)))
                  (add32 (fst kw) (snd kw)) in
  let t2 := add32 (Sigma0 (ra s)) (Maj (ra s) (rb s) (rc s)) in
  Regs (add32 t1 t2) (ra s) (rb s) (rc s) (add32 (rd s) t1) (re s) (rf s) (rg s).

Definition regs_of (h : list Z) : regs :=
  Regs (nth 0 h 0) (nth 1 h 0) (nth 2 h 0) (nth 3 h 0)
       (nth 4 h 0) (nth 5 h 0) (nth 6 h 0) (nth 7 h 0).

Definition compress (h : list Z) (block_words : list Z) : list Z :=
  let s := fold_left round (combine K (schedule block_words)) (regs_of h) in
  [ add32 (nth 0 h 0) (ra s); add32 (nth 1 h 0) (rb s);
    add32 (nth 2 h 0) (rc s); add32 (nth 3 h 0) (rd s);
    add32 (nth 4 h 0) (re s); add32 (nth 5 h 0) (rf s);
    add32 (nth 6 h 0) (rg s); add32 (nth 7 h 0) (rh s) ].

Fixpoint blocks (n : nat) (h : list Z) (bs : list Z) : list Z :=
  match n with
  | O => h
  | S k => blocks k (compress h (be_words 16 (firstn 64 bs))) (skipn 64 bs)
  end.

Definition digest (msg : list Z) : list Z :=
  let p := pad msg in
  blocks (Nat.div (length p) 64) H0 p.

Definition hex_lower_digit (d : Z) : ascii :=
  if d <? 10 then Py.chr (48 + d) else Py.chr (87 + d).

Fixpoint hex_word (n : nat) (x : Z) : string :=
  match n with
  | O => EmptyString
  | S k => String (hex_lower_digit (Z.land (Z.shiftr x (4 * Z.of_nat k)) 0xF)) (hex_word k x)
  end.

(** [hashlib.sha256(s.encode("utf-8")).hexdigest()] *)
Definition hexdigest (s : string) : string :=
  fold_right (fun w acc => hex_word 8 w +:+ acc) EmptyString (digest (Py.bytes_of s)).

End Sha256.

(* ===================================================================== *)
(** * SignatureCodec: gen_check_mac_value, verify_ecpay_signature *)
(* ===================================================================== *)

Module SignatureCodec.

(** Values found in the parameter dicts that the callers build: [None],
    [str] and [int] ([bytes] values are never passed and are left out). *)
Inductive value :=
| VNone
| VStr (s : string)
| VInt (n : Z).

(** A dict in insertion order. *)
Definition dict (A : Type) : Type := list (string * A).

Fixpoint dict_get {A} (k : string) (d : dict A) : option A :=
  match d with
  | [] => None
  | (k', v) :: r => if String.eqb k' k then Some v else dict_get k r
  end.

(** [d[k] = v]: an existing key keeps its place, a new key goes last. *)
Fixpoint dict_set {A} (k : string) (v : A) (d : dict A) : dict A :=
  match d with
  | [] => [(k, v)]
  | (k', v') :: r =>
      if String.eqb k' k then (k', v) :: r else (k', v') :: dict_set k v r
  end.

(** [d.pop(k, None)] *)
Fixpoint dict_pop {A} (k : string) (d : dict A) : dict A :=
  match d with
  | [] => []
  | (k', v) :: r => if String.eqb k' k then r else (k', v) :: dict_pop k r
  end.

(** [d.get(k, "")] on a dict of strings. *)
Definition get_str (k : string) (d : dict string) : string :=
  match dict_get k d with Some v => v | None => EmptyString end.

(** The secrets read from the environment; [None] is an unset variable. *)
Record config := Config {
  ECPAY_HASH_KEY : option string;
  ECPAY_HASH_IV : option string
}.

Definition opt_truthy (o : option string) : bool :=
  match o with Some s => Py.truthy s | None => false end.

Definition opt_strip (o : option string) : string :=
  match o with Some s => Py.strip s | None => EmptyString end.

(** Step 0: [str(v)] for every value that is not [None]. *)
Definition str_value (v : value) : option string :=
  match v with
  | VNone => None
  | VStr s => Some s
  | VInt n => Some (Py.str_of_int n)
  end.

Definition process_params (params : dict value) : dict string :=
  fold_left
    (fun acc kv =>
       match str_value (snd kv) with
       | None => acc
       | Some s => dict_set (fst kv) s acc
       end)
    params [].

(** Step 2: [sorted(items, key=lambda x: x[0].lower())].  Python's sort is
    stable: among items whose keys compare equal the earlier one stays
    first, which is what inserting from the right in front of the first
    item that is not smaller gives. *)
Definition sort_key (kv : string * string) : string := Py.lower (fst kv).

Fixpoint insert_item (x : string * string) (l : list (string * string)) :=
  match l with
  | [] => [x]
  | y :: r =>
      if String.leb (sort_key x) (sort_key y) then x :: y :: r
      else y :: insert_item x r
  end.

Definition sorted_items (items : list (string * string)) : list (string * string) :=
  fold_right insert_item [] items.

(** Steps 3 and 4. *)
Definition query_string (items : list (string * string)) : string :=
  Py.join "&" (map (fun kv => fst kv +:+ "=" +:+ snd kv) items).

Definition raw_string (hash_key hash_iv query : string) : string :=
  "HashKey=" +:+ hash_key +:+ "&" +:+ query +:+ "&HashIV=" +:+ hash_iv.

(** Steps 5 and 6. *)
Definition restore_chars (encoded : string) : string :=
  Py.replace "%29" ")"
    (Py.replace "%28" "("
       (Py.replace "%2a" "*"
          (Py.replace "%21" "!"
             (Py.replace "%2e" "."
                (Py.replace "%5f" "_"
                   (Py.replace "%2d" "-" encoded)))))).

Definition canonical (hash_key hash_iv : string) (params : dict value) : string :=
  let processed := dict_pop "CheckMacValue" (process_params params) in
  let query := query_string (sorted_items processed) in
  restore_chars (Py.lower (Py.quote_plus (raw_string hash_key hash_iv query))).

(** [gen_check_mac_value]; [None] stands for the [ValueError] raised when a
    secret is unset or blank. *)
Definition gen_check_mac_value (cfg : config) (params : dict value) : option string :=
  if negb (opt_truthy (ECPAY_HASH_KEY cfg)) || negb (opt_truthy (ECPAY_HASH_IV cfg))
  then None
  else
    let hash_key := opt_strip (ECPAY_HASH_KEY cfg) in
    let hash_iv := opt_strip (ECPAY_HASH_IV cfg) in
    if negb (Py.truthy hash_key) || negb (Py.truthy hash_iv) then None
    else Some (Py.upper (Sha256.hexdigest (canonical hash_key hash_iv params))).

(** [received_signature == expected_signature] *)
Definition value_eq_str (v : value) (s : string) : bool :=
  match v with
  | VStr r => String.eqb r s
  | _ => false
  end.

(** [verify_ecpay_signature]: any exception gives [False]. *)
Definition verify_ecpay_signature (cfg : config) (params : dict value) : bool :=
  let received_signature :=
    match dict_get "CheckMacValue" params with
    | Some v => v
    | None => VStr EmptyString
    end in
  match gen_check_mac_value cfg params with
  | Some expected_signature => value_eq_str received_signature expected_signature
  | None => false
  end.

(** The form fields of an inbound callback are all strings. *)
Definition of_form (params : dict string) : dict value :=
  map (fun kv => (fst kv, VStr (snd kv))) params.

End SignatureCodec.

(* ===================================================================== *)
(** * Datastore: the tables the handlers read and write *)
(* ===================================================================== *)

Definition timedelta_days (n : Z) : Z := n * 86400 * 1000000.

Inductive payment_status := pending | paid | failed | refunded.

Global Instance payment_status_eq_dec : EqDecision payment_status.
Proof. solve_decision. Defined.

Inductive activation_status := act_pending | act_activated | act_expired.

Global Instance activation_status_eq_dec : EqDecision activation_status.
Proof. solve_decision. Defined.

(** A row of [orders]; the table is keyed by the unique [order_id]. *)
Module Order.
Record t := Make {
  user_id : string;
  plan_type : string;
  amount : Z;
  payment_status : payment_status;
  payment_method : option string;
  trade_no : option string;
  paid_at : option Z;
  expires_at : option Z;
  invoice_type : option string;
  vat_number : option string;
  invoice_number : option string;
  is_upgrade : bool;   (* [metadata.get("is_upgrade", False)] of the JSON column *)
  payment_code : option string;
  bank_code : option string;
  expire_date : option Z;
  raw_payload : option (list (string * string));
  name : option string;
  email : option string;
  phone : option string;
  note : option string
}.
End Order.

(** A row of [licenses]; keyed by the unique [user_id]. *)
Module License.
Record t := Make {
  tier : string;
  seats : Z;
  expires_at : Z;
  status : string;
  source : option string
}.
End License.

(** A row of [user_auth]; keyed by [user_id]. *)
Module UserAuth.
Record t := Make {
  email : option string;
  is_subscribed : bool
}.
End UserAuth.

(** A row of [license_activations]; keyed by the unique
    [activation_token] (the [id] the statements select by names the same
    row). *)
Module Activation.
Record t := Make {
  channel : string;
  order_id : string;
  email : string;
  plan_type : string;
  amount : Z;
  status : activation_status;
  activated_at : option Z;
  activated_by_user_id : option string;
  link_expires_at : option Z;
  license_expires_at : option Z
}.
End Activation.

(** The write statements that changed a row, in execution order.  The
    journal is not a table of the program: it lets a property count the
    writes. *)
Inductive write :=
| OrderInserted (order_id : string)
| OrderStatusSet (order_id : string) (from to : payment_status)
| OrderCodeStored (order_id : string)
| LicenseUpserted (user_id : string)
| UserSubscribed (user_id : string)
| ActivationStatusSet (token : string) (from to : activation_status).

Module Store.

Record db := Db {
  orders : gmap string Order.t;
  licenses : gmap string License.t;
  user_auth : gmap string UserAuth.t;
  license_activations : gmap string Activation.t;
  journal : list write
}.

Definition with_orders (f : gmap string Order.t -> gmap string Order.t)
    (w : list write) (d : db) : db :=
  Db (f (orders d)) (licenses d) (user_auth d) (license_activations d) (journal d ++ w).

Definition with_licenses (f : gmap string License.t -> gmap string License.t)
    (w : list write) (d : db) : db :=
  Db (orders d) (f (licenses d)) (user_auth d) (license_activations d) (journal d ++ w).

Definition with_user_auth (f : gmap string UserAuth.t -> gmap string UserAuth.t)
    (w : list write) (d : db) : db :=
  Db (orders d) (licenses d) (f (user_auth d)) (license_activations d) (journal d ++ w).

Definition with_activations (f : gmap string Activation.t -> gmap string Activation.t)
    (w : list write) (d : db) : db :=
  Db (orders d) (licenses d) (user_auth d) (f (license_activations d)) (journal d ++ w).

(** [UPDATE orders SET ... WHERE order_id = ?]: changes the row when there
    is one. *)
Definition update_order (order_id : string) (f : Order.t -> Order.t)
    (w : Order.t -> list write) (d : db) : db :=
  match orders d !! order_id with
  | Some o => with_orders (<[order_id := f o]>) (w o) d
  | None => d
  end.

(** [UPDATE user_auth SET is_subscribed = 1 WHERE user_id = ?] *)
Definition subscribe_user (user_id : string) (d : db) : db :=
  match user_auth d !! user_id with
  | Some u =>
      with_user_auth (<[user_id := UserAuth.Make (UserAuth.email u) true]>)
        [UserSubscribed user_id] d
  | None => d
  end.

Definition status_of (order_id : string) (d : db) : option payment_status :=
  Order.payment_status <$> (orders d !! order_id).

Definition count_writes (p : write -> bool) (d : db) : nat :=
  length (List.filter p (journal d)).

End Store.

(* ===================================================================== *)
(** * The world outside a handler *)
(* ===================================================================== *)

(** Environment variables, the clock, and the answers of the libraries and
    of the gateway that a handler consults. *)
Record env := Env {
  cfg : SignatureCodec.config;
  ECPAY_MERCHANT_ID : option string;
  production : bool;              (* [os.getenv("ENVIRONMENT", "production") == "production"] *)
  use_postgresql : bool;
  ECPAY_INVOICE_ENABLED : bool;
  now : Z;                        (* [get_taiwan_time()] *)
  strptime : string -> string -> option Z;   (* [datetime.strptime]; [None] is its [ValueError] *)
  issue_ecpay_invoice : string -> string -> option string;
                                  (* invoice number for (order id, [TradeAmt]), [None] on any failure *)
  refund_response : option (Z * string);
                                  (* status code and body of the gateway's answer; [None] is an exception *)
  epoch_seconds : Z;              (* [int(time.time())] *)
  uuid4_hex : string;             (* [uuid.uuid4().hex] *)
  trade_date : string;            (* [get_taiwan_time().strftime("%Y/%m/%d %H:%M:%S")] *)
  BACKEND_BASE_URL : string;
  CLIENT_BACK_URL : string
}.

Definition ACK_OK : string := "1|OK".
Definition ACK_FAIL : string := "0|FAIL".

(** [datetime(2099, 12, 31, 23, 59, 59)] *)
Definition LIFETIME_SENTINEL : Z := 4102444799 * 1000000.

Definition opt_of_str (s : string) : option string :=
  if Py.truthy s then Some s else None.

(* ===================================================================== *)
(** * WebhookProcessor: ecpay_webhook *)
(* ===================================================================== *)

Module Webhook.
Import SignatureCodec.

(** The parsed form of the POST body and the verdict of [is_ecpay_ip] on the
    caller's address. *)
Record request := Request {
  params : dict string;
  is_ecpay_ip : bool
}.

Definition parse_date (e : env) (s : string) : option Z :=
  match strptime e s "%Y/%m/%d %H:%M:%S" with
  | Some t => Some t
  | None => strptime e s "%Y/%m/%d"
  end.

Definition paid_at_datetime (e : env) (payment_date : string) : Z :=
  if Py.truthy payment_date then
    match parse_date e payment_date with
    | Some t => t
    | None => now e
    end
  else now e.

Definition expire_datetime (e : env) (expire_date : string) : option Z :=
  if Py.truthy expire_date then parse_date e expire_date else None.

(** Lines 10548-10558: the expiry of the purchase. *)
Definition expires_dt (is_upgrade : bool) (plan_type : string) (paid_at : Z) : Z :=
  if is_upgrade || String.eqb plan_type "lifetime" then LIFETIME_SENTINEL
  else paid_at + timedelta_days 365.

Definition license_tier (is_upgrade : bool) (plan_type : string) : string :=
  if is_upgrade then "lifetime" else plan_type.

Definition is_atm_cvs (payment_type : string) : bool :=
  String.eqb payment_type "ATM" || String.eqb payment_type "CVS"
  || String.eqb payment_type "BARCODE".

Definition is_credit_linepay (payment_type : string) : bool :=
  String.eqb payment_type "Credit" || String.eqb payment_type "WebATM"
  || Py.contains "LINE" (Py.upper payment_type)
  || Py.contains "APPLE" (Py.upper payment_type).

(** [existing_trade_no and existing_trade_no == trade_no and current_status == "paid"] *)
Definition already_processed (o : Order.t) (trade_no : string) : bool :=
  match Order.trade_no o with
  | Some existing_trade_no =>
      Py.truthy existing_trade_no && String.eqb existing_trade_no trade_no
      && bool_decide (Order.payment_status o = paid)
  | None => false
  end.

Definition set_failed (raw : dict string) (o : Order.t) : Order.t :=
  Order.Make (Order.user_id o) (Order.plan_type o) (Order.amount o) failed
    (Order.payment_method o) (Order.trade_no o) (Order.paid_at o) (Order.expires_at o)
    (Order.invoice_type o) (Order.vat_number o) (Order.invoice_number o)
    (Order.is_upgrade o) (Order.payment_code o) (Order.bank_code o) (Order.expire_date o)
    (Some raw) (Order.name o) (Order.email o) (Order.phone o) (Order.note o).

Definition set_code (trade_no payment_type : string) (payment_code bank_code : option string)
    (expire : option Z) (raw : dict string) (o : Order.t) : Order.t :=
  Order.Make (Order.user_id o) (Order.plan_type o) (Order.amount o) (Order.payment_status o)
    (Some payment_type) (Some trade_no) (Order.paid_at o) (Order.expires_at o)
    (Order.invoice_type o) (Order.vat_number o) (Order.invoice_number o)
    (Order.is_upgrade o) payment_code bank_code expire
    (Some raw) (Order.name o) (Order.email o) (Order.phone o) (Order.note o).

Definition set_paid (trade_no payment_type : string) (paid_at expires : Z)
    (invoice_number : string) (raw : dict string) (o : Order.t) : Order.t :=
  Order.Make (Order.user_id o) (Order.plan_type o) (Order.amount o) paid
    (Some payment_type) (Some trade_no) (Some paid_at) (Some expires)
    (Order.invoice_type o) (Order.vat_number o) (Some invoice_number)
    (Order.is_upgrade o) (Order.payment_code o) (Order.bank_code o) (Order.expire_date o)
    (Some raw) (Order.name o) (Order.email o) (Order.phone o) (Order.note o).

(** The upsert of [licenses]: PostgreSQL keeps [seats] and [source] of an
    existing row, SQLite's [INSERT OR REPLACE] writes a fresh row. *)
Definition upsert_license (e : env) (user_id tier : string) (expires : Z)
    (d : Store.db) : Store.db :=
  let fresh := License.Make tier 1 expires "active" None in
  let row :=
    match Store.licenses d !! user_id with
    | Some old =>
        if use_postgresql e
        then License.Make tier (License.seats old) expires "active" (License.source old)
        else fresh
    | None => fresh
    end in
  Store.with_licenses (<[user_id := row]>) [LicenseUpserted user_id] d.

(** The writes of a completed payment: the order row, the license, the
    user's subscription flag. *)
Definition mark_paid (e : env) (p : dict string) (merchant_trade_no : string)
    (order : Order.t) (d : Store.db) : Store.db :=
  let trade_no := get_str "TradeNo" p in
  let payment_type := get_str "PaymentType" p in
  let is_upgrade := Order.is_upgrade order in
  let paid_at := paid_at_datetime e (get_str "PaymentDate" p) in
  let expires := expires_dt is_upgrade (Order.plan_type order) paid_at in
  let tier := license_tier is_upgrade (Order.plan_type order) in
  let invoice_number :=
    if ECPAY_INVOICE_ENABLED e && opt_truthy (Order.invoice_type order)
    then issue_ecpay_invoice e merchant_trade_no (get_str "TradeAmt" p)
    else None in
  let stored_invoice :=
    match invoice_number with
    | Some n => if Py.truthy n then n else merchant_trade_no
    | None => merchant_trade_no
    end in
  let d1 :=
    Store.update_order merchant_trade_no
      (set_paid trade_no payment_type paid_at expires stored_invoice p)
      (fun o => [OrderStatusSet merchant_trade_no (Order.payment_status o) paid]) d in
  let d2 := upsert_license e (Order.user_id order) tier expires d1 in
  Store.subscribe_user (Order.user_id order) d2.

(** The [ATM]/[CVS] code-issuance callback: the order stays [pending]. *)
Definition store_code (e : env) (p : dict string) (merchant_trade_no : string)
    (d : Store.db) : Store.db :=
  let payment_code :=
    if Py.truthy (get_str "PaymentNo" p) then get_str "PaymentNo" p
    else if Py.truthy (get_str "Barcode1" p) then get_str "Barcode1" p
    else if Py.truthy (get_str "Barcode2" p) then get_str "Barcode2" p
    else get_str "Barcode3" p in
  Store.update_order merchant_trade_no
    (set_code (get_str "TradeNo" p) (get_str "PaymentType" p)
       (opt_of_str payment_code) (opt_of_str (get_str "BankCode" p))
       (expire_datetime e (get_str "ExpireDate" p)) p)
    (fun _ => [OrderCodeStored merchant_trade_no]) d.

(** The branch taken once the order row has been read. *)
Definition settle (e : env) (p : dict string) (merchant_trade_no : string)
    (order : Order.t) (d : Store.db) : Store.db * string :=
  let trade_no := get_str "TradeNo" p in
  let rtn_code := get_str "RtnCode" p in
  let payment_type := get_str "PaymentType" p in
  let current_status := Order.payment_status order in
  if already_processed order trade_no then (d, ACK_OK)
  else if is_atm_cvs payment_type && bool_decide (current_status = pending) then
    (store_code e p merchant_trade_no d, ACK_OK)
  else if (is_credit_linepay payment_type
           || (is_atm_cvs payment_type && bool_decide (current_status = pending)))
          && String.eqb rtn_code "1" then
    (mark_paid e p merchant_trade_no order d, ACK_OK)
  else (d, ACK_OK).

(** [ecpay_webhook]: the new store and the plain-text acknowledgement. *)
Definition ecpay_webhook (e : env) (r : request) (d : Store.db) : Store.db * string :=
  let p := params r in
  if negb (is_ecpay_ip r) && production e then (d, ACK_FAIL)
  else if negb (verify_ecpay_signature (cfg e) (of_form p)) then (d, ACK_FAIL)
  else
    let merchant_trade_no := get_str "MerchantTradeNo" p in
    let rtn_code := get_str "RtnCode" p in
    if negb (String.eqb rtn_code "1") then
      (Store.update_order merchant_trade_no (set_failed p)
         (fun o => [OrderStatusSet merchant_trade_no (Order.payment_status o) failed]) d,
       ACK_OK)
    else
      match Store.orders d !! merchant_trade_no with
      | None => (d, ACK_OK)
      | Some order => settle e p merchant_trade_no order d
      end.

(** The expiry rule of the sibling handler [ecpay_return_url]
    (lines 10817-10832). *)
Definition return_url_expires_dt (is_upgrade : bool) (plan_type : string) (paid_at : Z) : Z :=
  if is_upgrade || String.eqb plan_type "lifetime" then LIFETIME_SENTINEL
  else if String.eqb plan_type "two_year" then paid_at + timedelta_days 730
  else if String.eqb plan_type "yearly" then paid_at + timedelta_days 365
  else paid_at + timedelta_days 30.

End Webhook.

(* ===================================================================== *)
(** * RefundCoordinator: process_ecpay_refund *)
(* ===================================================================== *)

Module Refund.
Import SignatureCodec.

Inductive result :=
| Refunded (refund_amount : Z)          (* [{"success": True, "refund_amount": ...}] *)
| NoSuchOrder
| StatusNotRefundable (s : payment_status)
| AmountTooLarge
| GatewayRejected (body : string)
| HttpError (status_code : Z)
| Raised.

Definition set_refunded (o : Order.t) : Order.t :=
  Order.Make (Order.user_id o) (Order.plan_type o) (Order.amount o) refunded
    (Order.payment_method o) (Order.trade_no o) (Order.paid_at o) (Order.expires_at o)
    (Order.invoice_type o) (Order.vat_number o) (Order.invoice_number o)
    (Order.is_upgrade o) (Order.payment_code o) (Order.bank_code o) (Order.expire_date o)
    (Order.raw_payload o) (Order.name o) (Order.email o) (Order.phone o) (Order.note o).

Definition refund_data (e : env) (trade_no : string) (refund_amount : Z) : dict value :=
  [ ("MerchantID", match ECPAY_MERCHANT_ID e with Some m => VStr m | None => VNone end);
    ("MerchantTradeNo", VStr trade_no);
    ("TradeNo", VStr "");
    ("Action", VStr "R");
    ("TotalAmount", VInt refund_amount) ].

(** [process_ecpay_refund(trade_no, refund_amount, refund_reason)].  Voiding
    the invoice only logs its failure and is not a step of the model. *)
Definition process_ecpay_refund (e : env) (trade_no : string) (refund_amount : option Z)
    (d : Store.db) : Store.db * result :=
  match Store.orders d !! trade_no with
  | None => (d, NoSuchOrder)
  | Some order =>
      if negb (bool_decide (Order.payment_status order = paid))
      then (d, StatusNotRefundable (Order.payment_status order))
      else
        let amount := Order.amount order in
        match
          match refund_amount with
          | None => Some amount
          | Some r => if amount <? r then None else Some r
          end
        with
        | None => (d, AmountTooLarge)
        | Some refund_amount =>
            match gen_check_mac_value (cfg e) (refund_data e trade_no refund_amount) with
            | None => (d, Raised)
            | Some _ =>
                match refund_response e with
                | None => (d, Raised)
                | Some (status_code, response_text) =>
                    if status_code =? 200 then
                      if Py.contains "RtnCode=1" response_text then
                        (Store.update_order trade_no set_refunded
                           (fun o => [OrderStatusSet trade_no (Order.payment_status o) refunded]) d,
                         Refunded refund_amount)
                      else (d, GatewayRejected response_text)
                    else (d, HttpError status_code)
                end
            end
        end
  end.

End Refund.

(* ===================================================================== *)
(** * Input validation: validate_plan_type, validate_user_id, validate_email *)
(* ===================================================================== *)

Module Validate.

Definition validate_plan_type (plan : string) : bool :=
  String.eqb plan "monthly" || String.eqb plan "yearly"
  || String.eqb plan "two_year" || String.eqb plan "lifetime".

Definition id_char (c : ascii) : bool :=
  Py.isalnum c || (Py.code c =? 95) || (Py.code c =? 45).

Definition validate_user_id (user_id : string) : bool :=
  Py.truthy user_id && negb (50 <? Py.len user_id) && Py.match_plus id_char user_id.

Definition is_letter (c : ascii) : bool := Py.is_upper c || Py.is_lower c.

(** [[a-zA-Z0-9._%+-]] and [[a-zA-Z0-9.-]] *)
Definition local_char (c : ascii) : bool :=
  Py.isalnum c || (Py.code c =? 46) || (Py.code c =? 95) || (Py.code c =? 37)
  || (Py.code c =? 43) || (Py.code c =? 45).
Definition domain_char (c : ascii) : bool :=
  Py.isalnum c || (Py.code c =? 46) || (Py.code c =? 45).

(** The text before and after the first occurrence of [sep]. *)
Fixpoint split_first (sep : Z) (s : string) : option (string * string) :=
  match s with
  | EmptyString => None
  | String c r =>
      if Py.code c =? sep then Some (EmptyString, r)
      else match split_first sep r with
           | Some (a, b) => Some (String c a, b)
           | None => None
           end
  end.

(** The text before and after the last occurrence of [sep]. *)
Definition split_last (sep : Z) (s : string) : option (string * string) :=
  match split_first sep (Py.rev_string EmptyString s) with
  | Some (b, a) => Some (Py.rev_string EmptyString a, Py.rev_string EmptyString b)
  | None => None
  end.

(** [^[a-zA-Z0-9._%+-]+@[a-zA-Z0-9.-]+\.[a-zA-Z]{2,}$]: the local part ends at
    the first [@]; the top-level label, made of letters only, starts after
    the last dot. *)
Definition email_pattern (s : string) : bool :=
  match split_first 64 (Py.chop_newline s) with
  | Some (local, rest) =>
      Py.truthy local && Py.forallb_string local_char local &&
      match split_last 46 rest with
      | Some (domain, tld) =>
          Py.truthy domain && Py.forallb_string domain_char domain
          && Py.forallb_string is_letter tld && (2 <=? Py.len tld)
      | None => false
      end
  | None => false
  end.

Definition validate_email (email : string) : bool :=
  Py.truthy email &&
  let email := Py.strip email in
  Py.truthy email && negb (255 <? Py.len email) && email_pattern email.

End Validate.

(* ===================================================================== *)
(** * OrderService: create_payment_order *)
(* ===================================================================== *)

Module OrderService.
Import SignatureCodec.

(** The JSON body, with the types the checkout page sends: a missing or
    [null] field is [None] for [plan], [amount] and [frontend_return_url]
    and the default [""] for the text fields. *)
Record body := Body {
  plan : option string;
  amount : option Z;
  name : string;
  email : string;
  phone : string;
  invoiceType : string;
  vat : string;
  note : string;
  frontend_return_url : option string
}.

Inductive response :=
| Rejected (status_code : Z)              (* an error page *)
| CheckoutForm (ecpay_data : dict value). (* the auto-submitting form, status 200 *)

(** [if not amount]: a missing amount and [0] are falsy. *)
Definition amount_given (a : option Z) : option Z :=
  match a with
  | Some n => if n =? 0 then None else Some n
  | None => None
  end.

Definition plan_amount (plan : string) : Z :=
  if String.eqb plan "monthly" then 399
  else if String.eqb plan "yearly" then 3990
  else if String.eqb plan "two_year" then 9900
  else 3990.

Definition order_amount (plan : string) (a : option Z) : Z :=
  match amount_given a with
  | Some n => n
  | None => plan_amount plan
  end.

Definition item_name (plan : string) : string :=
  if String.eqb plan "two_year" then "ReelMind Creator Pro 雙年方案"
  else if String.eqb plan "yearly" then "ReelMind Script Lite 入門版"
  else "ReelMind 永久使用方案".

(** [RM] + last 4 of the user id + last 8 of the timestamp + first 4 of the
    uuid, upper-cased. *)
Definition make_trade_no (e : env) (current_user_id : string) : string :=
  let timestamp := Py.last_n 8 (Py.str_of_int (epoch_seconds e)) in
  let user_suffix :=
    if 4 <=? Py.len current_user_id then Py.last_n 4 current_user_id
    else Py.zfill 4 current_user_id in
  let uuid_prefix := Py.upper (Py.first_n 4 (uuid4_hex e)) in
  "RM" +:+ user_suffix +:+ timestamp +:+ uuid_prefix.

Definition new_order (current_user_id plan : string) (amount : Z) (b : body) : Order.t :=
  Order.Make current_user_id plan amount pending (Some "ecpay") None None None
    (opt_of_str (invoiceType b)) (opt_of_str (vat b)) None false None None None None
    (opt_of_str (name b)) (opt_of_str (email b)) (opt_of_str (phone b)) (opt_of_str (note b)).

(** The [INSERT INTO orders] inside [try]: [order_id] is [UNIQUE], so the
    statement raises when the id is taken; the handler prints a warning,
    rolls back and goes on. *)
Definition insert_order (order_id : string) (o : Order.t) (d : Store.db) : Store.db * bool :=
  match Store.orders d !! order_id with
  | Some _ => (d, false)
  | None => (Store.with_orders (<[order_id := o]>) [OrderInserted order_id] d, true)
  end.

Definition order_result_url (e : env) (trade_no : string) (b : body) : string :=
  let base := Py.strip (BACKEND_BASE_URL e) in
  match frontend_return_url b with
  | Some u =>
      if Py.truthy u
      then base +:+ "/api/payment/result?order_id=" +:+ trade_no
           +:+ "&frontend_return_url=" +:+ Py.quote u
      else base +:+ "/api/payment/result?order_id=" +:+ trade_no
  | None => base +:+ "/api/payment/result?order_id=" +:+ trade_no
  end.

Definition ecpay_data (e : env) (trade_no plan : string) (amount : Z) (b : body) : dict value :=
  let base := Py.strip (BACKEND_BASE_URL e) in
  [ ("MerchantID", match ECPAY_MERCHANT_ID e with Some m => VStr m | None => VNone end);
    ("MerchantTradeNo", VStr trade_no);
    ("MerchantTradeDate", VStr (trade_date e));
    ("PaymentType", VStr "aio");
    ("TotalAmount", VInt amount);
    ("TradeDesc", VStr (item_name plan));
    ("ItemName", VStr (item_name plan));
    ("ReturnURL", VStr (base +:+ "/api/payment/return-url"));
    ("OrderResultURL", VStr (order_result_url e trade_no b));
    ("ChoosePayment", VStr "Credit");
    ("EncryptType", VInt 1);
    ("ClientBackURL", VStr (CLIENT_BACK_URL e)) ].

Definition config_complete (e : env) : bool :=
  opt_truthy (ECPAY_MERCHANT_ID e) && opt_truthy (ECPAY_HASH_KEY (cfg e))
  && opt_truthy (ECPAY_HASH_IV (cfg e)).

(** The checks of the body that come after the plan checks. *)
Definition buyer_fields_ok (current_user_id : string) (b : body) : bool :=
  Validate.validate_user_id current_user_id
  && (Py.truthy (name b) && negb (Py.len (Py.strip (name b)) =? 0)
      && negb (100 <? Py.len (name b)))
  && (Py.truthy (email b) && Validate.validate_email (email b))
  && negb (Py.truthy (phone b) && (20 <? Py.len (phone b)))
  && negb (Py.truthy (vat b)
           && ((20 <? Py.len (vat b)) || negb (Py.match_plus Py.is_digit (vat b))))
  && negb (Py.truthy (note b) && (500 <? Py.len (note b))).

(** [create_payment_order]: the new store and the HTTP response. *)
Definition create_payment_order (e : env) (current_user_id : option string) (b : body)
    (d : Store.db) : Store.db * response :=
  match current_user_id with
  | None => (d, Rejected 401)
  | Some current_user_id =>
      if negb (Py.truthy current_user_id) then (d, Rejected 401)
      else if negb (config_complete e) then (d, Rejected 500)
      else
        match plan b with
        | None => (d, Rejected 400)
        | Some plan =>
            if negb (Py.truthy plan) || negb (Validate.validate_plan_type plan)
            then (d, Rejected 400)
            else if String.eqb plan "lifetime" then (d, Rejected 403)
            else if negb (buyer_fields_ok current_user_id b) then (d, Rejected 400)
            else
              let amount := order_amount plan (amount b) in
              let trade_no := make_trade_no e current_user_id in
              let d' := fst (insert_order trade_no (new_order current_user_id plan amount b) d) in
              let data := ecpay_data e trade_no plan amount b in
              match gen_check_mac_value (cfg e) data with
              | None => (d', Rejected 500)
              | Some mac => (d', CheckoutForm (dict_set "CheckMacValue" (VStr mac) data))
              end
        end
  end.

End OrderService.

(* ===================================================================== *)
(** * LicenseActivationService: verify_license_token *)
(* ===================================================================== *)

Module Redeem.

(** One call of the endpoint: the token of the query string, the identity
    [get_current_user] resolved, and the reading of the clock. *)
Record request := Request {
  token : string;
  current_user_id : option string;
  clock : Z                       (* [get_taiwan_time()] of this request *)
}.

Inductive response :=
| MissingToken            (* 400 *)
| BadTokenFormat          (* 400 *)
| NotFound                (* 404 *)
| AlreadyActivated        (* 200, [status: already_activated] *)
| LinkUsed                (* 400, the link has been used *)
| LinkExpired (expired_at : Z)   (* 400 *)
| RedirectLogin           (* 302 to the login page *)
| RedirectSuccess (plan_type : string).   (* 302 to the success page *)

(** Where a request stands between two SQL statements. *)
Inductive phase :=
| Start
| MarkExpired (expire_dt : Z)
| Activate (row : Activation.t) (user_id : string) (license_expire_dt : Z)
| Grant (row : Activation.t) (user_id : string) (license_expire_dt : Z)
| Done (r : response).

Definition token_char (c : ascii) : bool :=
  Py.isalnum c || (Py.code c =? 45) || (Py.code c =? 95).

Definition user_truthy (u : option string) : bool :=
  match u with Some s => Py.truthy s | None => false end.

(** [if link_expires_at:] - SQLite hands back a number, and [0] is falsy. *)
Definition stamp_truthy (e : env) (t : option Z) : option Z :=
  match t with
  | Some x => if negb (use_postgresql e) && (x =? 0) then None else Some x
  | None => None
  end.

(** The branch for a row that is already [activated]. *)
Definition already_activated_reply (r : request) (row : Activation.t) (d : Store.db) : response :=
  match current_user_id r with
  | Some uid =>
      if Py.truthy uid then
        match Store.user_auth d !! uid with
        | Some u =>
            match UserAuth.email u with
            | Some user_email =>
                if Py.truthy user_email
                   && String.eqb (Py.lower user_email) (Py.lower (Activation.email row))
                   && UserAuth.is_subscribed u
                then AlreadyActivated
                else LinkUsed
            | None => LinkUsed
            end
        | None => LinkUsed
        end
      else LinkUsed
  | None => LinkUsed
  end.

(** The entitlement's end: a trial runs from the moment of activation. *)
Definition license_expire_dt (e : env) (r : request) (row : Activation.t) : Z :=
  if String.eqb (Activation.plan_type row) "trial" then clock r + timedelta_days 7
  else
    match stamp_truthy e (Activation.license_expires_at row) with
    | Some t => t
    | None =>
        let days :=
          if String.eqb (Activation.plan_type row) "yearly" then 365
          else if String.eqb (Activation.plan_type row) "lifetime" then 365 * 100
          else 365 in
        clock r + timedelta_days days
    end.

Definition set_status (s : activation_status) (row : Activation.t) : Activation.t :=
  Activation.Make (Activation.channel row) (Activation.order_id row) (Activation.email row)
    (Activation.plan_type row) (Activation.amount row) s
    (Activation.activated_at row) (Activation.activated_by_user_id row)
    (Activation.link_expires_at row) (Activation.license_expires_at row).

Definition set_activated (at_ : Z) (user_id : string) (row : Activation.t) : Activation.t :=
  Activation.Make (Activation.channel row) (Activation.order_id row) (Activation.email row)
    (Activation.plan_type row) (Activation.amount row) act_activated
    (Some at_) (Some user_id)
    (Activation.link_expires_at row) (Activation.license_expires_at row).

(** The token checks and the [SELECT], with the decisions taken on the row
    that was read. *)
Definition read_row (e : env) (r : request) (d : Store.db) : phase :=
  if negb (Py.truthy (token r)) then Done MissingToken
  else if (200 <? Py.len (token r)) || negb (Py.forallb_string token_char (token r))
  then Done BadTokenFormat
  else
    match Store.license_activations d !! token r with
    | None => Done NotFound
    | Some row =>
        if bool_decide (Activation.status row = act_activated)
        then Done (already_activated_reply r row d)
        else
          match
            match stamp_truthy e (Activation.link_expires_at row) with
            | Some expire_dt => if expire_dt <? clock r then Some expire_dt else None
            | None => None
            end
          with
          | Some expire_dt => MarkExpired expire_dt
          | None =>
              match current_user_id r with
              | Some uid =>
                  if Py.truthy uid then Activate row uid (license_expire_dt e r row)
                  else Done RedirectLogin
              | None => Done RedirectLogin
              end
          end
    end.

(** [UPDATE license_activations SET status = 'expired' WHERE id = ?] *)
Definition mark_expired (tok : string) (d : Store.db) : Store.db :=
  match Store.license_activations d !! tok with
  | Some row =>
      Store.with_activations (<[tok := set_status act_expired row]>)
        [ActivationStatusSet tok (Activation.status row) act_expired] d
  | None => d
  end.

(** [UPDATE license_activations SET status = 'activated', ...
     WHERE id = ? AND status != 'activated'], with its [rowcount]. *)
Definition conditional_update (tok user_id : string) (at_ : Z) (d : Store.db) : Store.db * Z :=
  match Store.license_activations d !! tok with
  | Some row =>
      if bool_decide (Activation.status row = act_activated) then (d, 0)
      else
        (Store.with_activations (<[tok := set_activated at_ user_id row]>)
           [ActivationStatusSet tok (Activation.status row) act_activated] d, 1)
  | None => (d, 0)
  end.

(** The upsert of [licenses] of this endpoint, which also writes [source]. *)
Definition upsert_license (e : env) (user_id tier : string) (expires : Z)
    (source : string) (d : Store.db) : Store.db :=
  let fresh := License.Make tier 1 expires "active" (Some source) in
  let row :=
    match Store.licenses d !! user_id with
    | Some old =>
        if use_postgresql e
        then License.Make tier (License.seats old) expires "active" (Some source)
        else fresh
    | None => fresh
    end in
  Store.with_licenses (<[user_id := row]>) [LicenseUpserted user_id] d.

(** Create the [user_auth] row or set [is_subscribed]. *)
Definition ensure_subscribed (user_id email : string) (d : Store.db) : Store.db :=
  match Store.user_auth d !! user_id with
  | None =>
      Store.with_user_auth (<[user_id := UserAuth.Make (Some email) true]>)
        [UserSubscribed user_id] d
  | Some _ => Store.subscribe_user user_id d
  end.

(** [INSERT ... INTO orders ... ON CONFLICT (order_id) DO NOTHING] *)
Definition record_order (r : request) (row : Activation.t) (user_id : string)
    (expires : Z) (d : Store.db) : Store.db :=
  match Store.orders d !! Activation.order_id row with
  | Some _ => d
  | None =>
      Store.with_orders
        (<[Activation.order_id row :=
             Order.Make user_id (Activation.plan_type row) (Activation.amount row) paid
               (Some (Activation.channel row)) None (Some (clock r)) (Some expires)
               None None None false None None None None
               None (Some (Activation.email row)) None None]>)
        [OrderInserted (Activation.order_id row)] d
  end.

Definition grant (e : env) (r : request) (row : Activation.t) (user_id : string)
    (expires : Z) (d : Store.db) : Store.db :=
  let d1 := upsert_license e user_id (Activation.plan_type row) expires
              (Activation.channel row) d in
  let d2 := ensure_subscribed user_id (Activation.email row) d1 in
  record_order r row user_id expires d2.

(** One statement of one request. *)
Definition step (e : env) (r : request) (ph : phase) (d : Store.db) : phase * Store.db :=
  match ph with
  | Start => (read_row e r d, d)
  | MarkExpired expire_dt => (Done (LinkExpired expire_dt), mark_expired (token r) d)
  | Activate row user_id expires =>
      let '(d', rows_updated) := conditional_update (token r) user_id (clock r) d in
      if rows_updated =? 0 then (Done LinkUsed, d')
      else (Grant row user_id expires, d')
  | Grant row user_id expires =>
      (Done (RedirectSuccess (Activation.plan_type row)), grant e r row user_id expires d)
  | Done resp => (Done resp, d)
  end.

Fixpoint steps (n : nat) (e : env) (r : request) (ph : phase) (d : Store.db) : phase * Store.db :=
  match n with
  | O => (ph, d)
  | S k => let '(ph', d') := step e r ph d in steps k e r ph' d'
  end.

(** [verify_license_token] run alone: at most three statements follow each
    other. *)
Definition verify_license_token (e : env) (r : request) (d : Store.db) : phase * Store.db :=
  steps 3 e r Start d.

(** Concurrent requests: [schedule] names, statement by statement, the
    request that runs next. *)
Definition thread : Type := request * phase.

Definition run_one (e : env) (i : nat) (ts : list thread) (d : Store.db) : list thread * Store.db :=
  match ts !! i with
  | Some (r, ph) =>
      let '(ph', d') := step e r ph d in (<[i := (r, ph')]> ts, d')
  | None => (ts, d)
  end.

Fixpoint run (e : env) (schedule : list nat) (ts : list thread) (d : Store.db)
    : list thread * Store.db :=
  match schedule with
  | [] => (ts, d)
  | i :: rest => let '(ts', d') := run_one e i ts d in run e rest ts' d'
  end.

Definition start (rs : list request) : list thread := map (fun r => (r, Start)) rs.

(** A request has been granted the entitlement once its conditional update
    changed the row. *)
Definition granted (t : thread) : bool :=
  match snd t with
  | Grant _ _ _ => true
  | Done (RedirectSuccess _) => true
  | _ => false
  end.

Definition is_activation_of (tok : string) (w : write) : bool :=
  match w with
  | ActivationStatusSet t _ act_activated => String.eqb t tok
  | _ => false
  end.

Definition is_license_upsert (w : write) : bool :=
  match w with
  | LicenseUpserted _ => true
  | _ => false
  end.

End Redeem.

(* ===================================================================== *)
(** * Notions used to state the properties *)
(* ===================================================================== *)

Module Props.
Import SignatureCodec.

Definition ascii_string (s : string) : bool :=
  Py.forallb_string (fun c => Py.code c <? 128) s.

Definition ascii_secret (o : option string) : bool :=
  match o with
  | Some s => ascii_string s && Py.truthy (Py.strip s)
  | None => false
  end.

(** Both secrets are set to ASCII strings that are not blank. *)
Definition configured (c : config) : bool :=
  ascii_secret (ECPAY_HASH_KEY c) && ascii_secret (ECPAY_HASH_IV c).

(** The field names are ASCII and stay pairwise distinct once lower-cased. *)
Definition distinct_fields (p : dict value) : Prop :=
  Forall (fun kv => ascii_string (fst kv) = true) p /\
  List.NoDup (map (fun kv => Py.lower (fst kv)) p).

(** The entries that [gen_check_mac_value] signs, for a dict with distinct
    keys: the values that are not [None], without the MAC field. *)
Definition kept (kv : string * value) : list (string * string) :=
  match str_value (snd kv) with
  | Some s => [(fst kv, s)]
  | None => []
  end.

Definition not_mac (kv : string * string) : bool :=
  negb (String.eqb (fst kv) "CheckMacValue").

Definition entries (p : dict value) : list (string * string) :=
  List.filter not_mac (flat_map kept p).

(** A callback that passes the two checks the webhook makes before it looks
    at the order: the caller's address (enforced in production) and the
    MAC. *)
Definition verified (e : env) (r : Webhook.request) : bool :=
  negb (negb (Webhook.is_ecpay_ip r) && production e)
  && verify_ecpay_signature (cfg e) (of_form (Webhook.params r)).

(** The form a gateway holding the secrets sends: the fields and their MAC. *)
Definition signed (c : config) (p : dict string) : dict string :=
  match gen_check_mac_value c (of_form p) with
  | Some mac => p ++ [("CheckMacValue", mac)]
  | None => p
  end.

(** The operations that write [payment_status]. *)
Inductive operation :=
| WebhookDelivery (e : env) (r : Webhook.request)
| RefundCall (e : env) (trade_no : string) (refund_amount : option Z).

Definition apply (op : operation) (d : Store.db) : Store.db :=
  match op with
  | WebhookDelivery e r => fst (Webhook.ecpay_webhook e r d)
  | RefundCall e trade_no refund_amount =>
      fst (Refund.process_ecpay_refund e trade_no refund_amount d)
  end.





(** A token that passes the format checks of the endpoint. *)
Definition token_ok (tok : string) : bool :=
  Py.truthy tok
  && negb ((200 <? Py.len tok) || negb (Py.forallb_string Redeem.token_char tok)).

End Props.

(* ===================================================================== *)
(** * Notions used to state the properties of concurrent redemption *)
(* ===================================================================== *)

Module Race.
Import Redeem.

Definition weight (p : thread -> bool) (t : thread) : nat := if p t then 1%nat else 0%nat.

(** The number of requests of [ts] that satisfy [p]. *)
Fixpoint total (p : thread -> bool) (ts : list thread) : nat :=
  match ts with
  | [] => 0%nat
  | t :: rest => (weight p t + total p rest)%nat
  end.

Definition finished (t : thread) : bool :=
  match snd t with
  | Done (RedirectSuccess _) => true
  | _ => false
  end.

Definition marking (t : thread) : bool :=
  match snd t with
  | MarkExpired _ => true
  | _ => false
  end.

Definition link_of (tok : string) (d : Store.db) : option (option Z) :=
  Activation.link_expires_at <$> (Store.license_activations d !! tok).

Definition activated_in (tok : string) (d : Store.db) : Prop :=
  Activation.status <$> (Store.license_activations d !! tok) = Some act_activated.

(** The request does not find the link past its deadline. *)
Definition in_time (e : env) (link : option (option Z)) (r : request) : Prop :=
  match link with
  | Some l =>
      match stamp_truthy e l with
      | Some expire_dt => clock r <= expire_dt
      | None => True
      end
  | None => True
  end.

(** What holds between any two statements while every request is in time:
    no request is about to mark the link expired, one request at most has
    been let through, and the journal counts agree with the requests. *)
Definition race_inv (e : env) (tok : string) (link : option (option Z))
    (a0 u0 : nat) (ts : list thread) (d : Store.db) : Prop :=
  Forall (fun t => token (fst t) = tok /\ in_time e link (fst t)) ts /\
  Forall (fun t => marking t = false) ts /\
  link_of tok d = link /\
  (total granted ts <= 1)%nat /\
  (total granted ts = 1%nat -> activated_in tok d) /\
  Store.count_writes (is_activation_of tok) d = (a0 + total granted ts)%nat /\
  Store.count_writes is_license_upsert d = (u0 + total finished ts)%nat.

End Race.

(* ===================================================================== *)
(** * Concrete stores and requests *)
(* ===================================================================== *)

Module Sample.
Import SignatureCodec.

Definition secrets : config := Config (Some "pwFHCqoQZGmho4w6") (Some "EkRm7iFT261dpevs").

Definition e0 : env :=
  Env secrets (Some "3002607") true true false
      1700000000000000 (fun _ _ => None) (fun _ _ => None) None
      1700000000 "9f3ac41d2b7e4c0f8a6d5e4f3a2b1c0d" "2023/11/15 06:13:20"
      "https://api.aijob.com.tw" "https://reelmind.aijob.com.tw/payment-result.html".

Definition order_of (plan : string) (amount : Z) (s : payment_status)
    (trade_no : option string) : Order.t :=
  Order.Make "user_ab12" plan amount s (Some "ecpay") trade_no None None
    None None None false None None None None
    (Some "Lin") (Some "lin@example.com") None None.

Definition empty_db : Store.db := Store.Db ∅ ∅ ∅ ∅ [].

Definition db_with (order_id : string) (o : Order.t) : Store.db :=
  Store.Db {[ order_id := o ]} ∅ {[ "user_ab12" := UserAuth.Make (Some "lin@example.com") false ]} ∅ [].

Definition callback (order_id rtn_code trade_amt : string) : dict string :=
  [ ("MerchantID", "3002607"); ("MerchantTradeNo", order_id);
    ("TradeNo", "2311150613201234"); ("RtnCode", rtn_code);
    ("RtnMsg", "x"); ("TradeAmt", trade_amt);
    ("PaymentDate", ""); ("PaymentType", "Credit") ].

Definition delivery (p : dict string) : Webhook.request :=
  Webhook.Request (Props.signed secrets p) true.

Definition buyer (plan : string) (amount : option Z) : OrderService.body :=
  OrderService.Body (Some plan) amount "Lin" "lin@example.com" "" "" "" "" None.

(** The fields of the checkout form of a response. *)
Definition form_data (out : Store.db * OrderService.response) : dict value :=
  match snd out with
  | OrderService.CheckoutForm data => data
  | OrderService.Rejected _ => []
  end.

Definition link (expires : Z) : Activation.t :=
  Activation.Make "course" "C-1001" "lin@example.com" "yearly" 3990 act_pending
    None None (Some expires) (Some 1800000000000000).

Definition db_link (expires : Z) : Store.db :=
  Store.Db ∅ ∅ ∅ {[ "tok-1" := link expires ]} [].

Definition visit (user : string) (t : Z) : Redeem.request :=
  Redeem.Request "tok-1" (Some user) t.

(** The same environment a while later. *)
Definition e1 : env :=
  Env secrets (Some "3002607") true true false
      1700000600000000 (fun _ _ => None) (fun _ _ => None) None
      1700000600 "0b1c2d3e4f5a69788796a5b4c3d2e1f0" "2023/11/15 06:23:20"
      "https://api.aijob.com.tw" "https://reelmind.aijob.com.tw/payment-result.html".

Definition order_id : string := "RMab12000000009F3A".
Definition gateway_ref : string := "2311150613201234".

Definition pending_db : Store.db := db_with order_id (order_of "yearly" 3990 pending None).
Definition paid_db : Store.db :=
  db_with order_id (order_of "yearly" 3990 paid (Some gateway_ref)).

Definition success_delivery : Webhook.request := delivery (callback order_id "1" "3990").
Definition failure_delivery : Webhook.request := delivery (callback order_id "10100058" "3990").

(** The success callback with its amount altered after signing. *)
Definition tampered_delivery : Webhook.request :=
  Webhook.Request
    (dict_set "TradeAmt" "1" (Props.signed secrets (callback order_id "1" "3990"))) true.

(** Two insertion orders of one dict whose keys differ in case only. *)
Definition case_keys_1 : dict value := [("a", VStr "1"); ("A", VStr "2")].
Definition case_keys_2 : dict value := [("A", VStr "2"); ("a", VStr "1")].

Definition fields_1 : dict value :=
  [("MerchantID", VStr "3002607"); ("TotalAmount", VInt 3990); ("ItemName", VStr "x")].
Definition fields_2 : dict value :=
  [("TotalAmount", VInt 3990); ("MerchantID", VStr "3002607"); ("ItemName", VStr "x")].


End Sample.

(* ===================================================================== *)
(** * WebhookProcessor, second entry point: ecpay_return_url *)
(* ===================================================================== *)

Module ReturnUrl.
Import SignatureCodec.

(** The [UPDATE orders] of a completed payment: this handler leaves
    [invoice_number] alone and falls back to ["ecpay"] for the method. *)
Definition set_paid (trade_no payment_type : string) (paid_at expires : Z)
    (raw : dict string) (o : Order.t) : Order.t :=
  Order.Make (Order.user_id o) (Order.plan_type o) (Order.amount o) paid
    (Some (if Py.truthy payment_type then payment_type else "ecpay"))
    (Some trade_no) (Some paid_at) (Some expires)
    (Order.invoice_type o) (Order.vat_number o) (Order.invoice_number o)
    (Order.is_upgrade o) (Order.payment_code o) (Order.bank_code o) (Order.expire_date o)
    (Some raw) (Order.name o) (Order.email o) (Order.phone o) (Order.note o).

(** The upsert of [licenses] of this handler: on PostgreSQL it also resets
    [seats]; [source] of an existing row is kept there. *)
Definition upsert_license (e : env) (user_id tier : string) (expires : Z)
    (d : Store.db) : Store.db :=
  let fresh := License.Make tier 1 expires "active" None in
  let row :=
    match Store.licenses d !! user_id with
    | Some old =>
        if use_postgresql e
        then License.Make tier 1 expires "active" (License.source old)
        else fresh
    | None => fresh
    end in
  Store.with_licenses (<[user_id := row]>) [LicenseUpserted user_id] d.

Definition mark_paid (e : env) (p : dict string) (merchant_trade_no : string)
    (order : Order.t) (d : Store.db) : Store.db :=
  let is_upgrade := Order.is_upgrade order in
  let paid_at := Webhook.paid_at_datetime e (get_str "PaymentDate" p) in
  let expires := Webhook.return_url_expires_dt is_upgrade (Order.plan_type order) paid_at in
  let tier := Webhook.license_tier is_upgrade (Order.plan_type order) in
  let d1 :=
    Store.update_order merchant_trade_no
      (set_paid (get_str "TradeNo" p) (get_str "PaymentType" p) paid_at expires p)
      (fun o => [OrderStatusSet merchant_trade_no (Order.payment_status o) paid]) d in
  let d2 := upsert_license e (Order.user_id order) tier expires d1 in
  Store.subscribe_user (Order.user_id order) d2.

(** [ecpay_return_url]: the MAC is checked (there is no address check), the
    order is read first, the duplicate test comes before the result code,
    and every payment method is settled the same way. *)
Definition ecpay_return_url (e : env) (p : dict string) (d : Store.db) : Store.db * string :=
  if negb (verify_ecpay_signature (cfg e) (of_form p)) then (d, ACK_FAIL)
  else
    let merchant_trade_no := get_str "MerchantTradeNo" p in
    match Store.orders d !! merchant_trade_no with
    | None => (d, ACK_OK)
    | Some order =>
        if Webhook.already_processed order (get_str "TradeNo" p) then (d, ACK_OK)
        else if negb (String.eqb (get_str "RtnCode" p) "1") then
          (Store.update_order merchant_trade_no (Webhook.set_failed p)
             (fun o => [OrderStatusSet merchant_trade_no (Order.payment_status o) failed]) d,
           ACK_OK)
        else (mark_paid e p merchant_trade_no order d, ACK_OK)
    end.

End ReturnUrl.

(* ===================================================================== *)
(** * RefundCoordinator, the endpoint: refund_order *)
(* ===================================================================== *)

Module RefundEndpoint.

(** The JSON body: [order_id] and the optional [refund_amount]. *)
Record body := Body {
  order_id : option string;
  refund_amount : option Z
}.

(** The status code of the answer and, on success, the amount refunded. *)
Inductive response :=
| Ok200 (refund_amount : Z)
| Bad400.

Definition refund_order (e : env) (b : body) (d : Store.db) : Store.db * response :=
  match order_id b with
  | None => (d, Bad400)
  | Some oid =>
      if negb (Py.truthy oid) then (d, Bad400)
      else
        match Refund.process_ecpay_refund e oid (refund_amount b) d with
        | (d', Refund.Refunded amount) => (d', Ok200 amount)
        | (d', _) => (d', Bad400)
        end
  end.

End RefundEndpoint.

(* ===================================================================== *)
(** * LicenseActivationService, issuing: verify_license_webhook *)
(* ===================================================================== *)

Module Issue.

(** What the endpoint reads from the process and the libraries: the
    configured [WEBHOOK_SECRET] ([""] when unset), the clock, and the tokens
    that successive calls of [secrets.token_urlsafe(32)] return. *)
Record world := World {
  WEBHOOK_SECRET : string;
  clock : Z;
  token_urlsafe : nat -> string;
  FRONTEND_URL : string
}.

(** The JSON body with the types the partner channels send; a missing field
    has the default of its [body.get]. *)
Record body := Body {
  secret : string;               (* default [""] *)
  channel : string;              (* default ["n8n"] *)
  order_id : option string;
  email : option string;
  emails : option (list string);
  plan_type : string;            (* default ["yearly"] *)
  amount : Z;                    (* default [0] *)
  product_name : string          (* default [""] *)
}.

(** The [X-Webhook-Secret] header ([""] when absent) and the body, [None]
    when it is not JSON. *)
Record request := Request {
  header_secret : string;
  json : option body
}.

Record activation_link := Link {
  link_email : string;
  activation_token : string;
  link_url : string;
  link_plan_type : string;
  link_license_expires_at : Z;
  link_link_expires_at : Z
}.

Inductive response :=
| Unauthorized                    (* 401 *)
| BadRequest                      (* 400 *)
| ServerError                     (* 500 *)
| Issued (links : list activation_link) (errors : list string).   (* 200 *)

(** The secret the caller presented: the header, else the body's field. *)
Definition provided_secret (r : request) : string :=
  if Py.truthy (header_secret r) then header_secret r
  else match json r with
       | Some b => secret b
       | None => EmptyString
       end.

Definition authorized (w : world) (r : request) : bool :=
  negb (Py.truthy (WEBHOOK_SECRET w))
  || String.eqb (provided_secret r) (WEBHOOK_SECRET w).

(** The plan: one of the three known ones as given, otherwise guessed from
    the product name and the amount. *)
Definition resolve_plan (b : body) : string :=
  let given := plan_type b in
  if String.eqb given "yearly" || String.eqb given "lifetime" || String.eqb given "trial"
  then given
  else if Py.contains "永久" (product_name b)
          || Py.contains "lifetime" (Py.lower (product_name b))
          || (9900 <=? amount b)
  then "lifetime"
  else if Py.contains "試用" (product_name b)
          || Py.contains "trial" (Py.lower (product_name b))
          || (amount b =? 0)
  then "trial"
  else "yearly".

Definition license_expires_at (w : world) (plan : string) : Z :=
  if String.eqb plan "lifetime" then LIFETIME_SENTINEL
  else if String.eqb plan "trial" then clock w + timedelta_days 7
  else clock w + timedelta_days 365.

Definition link_expires_at (w : world) : Z := clock w + timedelta_days 7.

Definition frontend_url (w : world) : string :=
  if negb (String.prefix "http://" (FRONTEND_URL w))
     && negb (String.prefix "https://" (FRONTEND_URL w))
  then "https://" +:+ FRONTEND_URL w
  else FRONTEND_URL w.

Definition email_list (b : body) : option (list string) :=
  match emails b with
  | Some (x :: rest) => Some (x :: rest)
  | _ =>
      match email b with
      | Some a => if Py.truthy a then Some [a] else None
      | None => None
      end
  end.

Definition new_row (w : world) (b : body) (plan email_item : string) : Activation.t :=
  Activation.Make (channel b)
    (match order_id b with Some o => o | None => EmptyString end)
    email_item plan (amount b) act_pending None None
    (Some (link_expires_at w)) (Some (license_expires_at w plan)).

(** The loop over the addresses: the [i]-th one gets the [i]-th token; the
    [INSERT] raises when the token is taken ([activation_token] is
    [UNIQUE]), which puts the address among the errors.  The journal has
    no entry for this insert. *)
Fixpoint issue_all (w : world) (b : body) (plan : string) (i : nat)
    (todo : list string) (d : Store.db)
    : Store.db * list activation_link * list string :=
  match todo with
  | [] => (d, [], [])
  | email_item :: rest =>
      let tok := token_urlsafe w i in
      match Store.license_activations d !! tok with
      | Some _ =>
          let '(d', links, errors) := issue_all w b plan (S i) rest d in
          (d', links, email_item :: errors)
      | None =>
          let d1 := Store.with_activations (<[tok := new_row w b plan email_item]>) [] d in
          let '(d', links, errors) := issue_all w b plan (S i) rest d1 in
          (d',
           Link email_item tok (frontend_url w +:+ "/?token=" +:+ tok) plan
             (license_expires_at w plan) (link_expires_at w) :: links,
           errors)
      end
  end.

(** [verify_license_webhook] *)
Definition verify_license_webhook (w : world) (r : request) (d : Store.db)
    : Store.db * response :=
  if negb (authorized w r) then (d, Unauthorized)
  else
    match json r with
    | None => (d, ServerError)
    | Some b =>
        match order_id b with
        | None => (d, BadRequest)
        | Some oid =>
            if negb (Py.truthy oid) then (d, BadRequest)
            else
              match email_list b with
              | None => (d, BadRequest)
              | Some todo =>
                  let '(d', links, errors) := issue_all w b (resolve_plan b) O todo d in
                  match links with
                  | [] => (d', ServerError)
                  | _ => (d', Issued links errors)
                  end
              end
        end
    end.

End Issue.

(* ===================================================================== *)
(** * Notions used to state the format of a MAC *)
(* ===================================================================== *)

(** A digit of an upper-case hexadecimal numeral. *)
Definition upper_hex (c : ascii) : bool :=
  Py.is_digit c || ((65 <=? Py.code c) && (Py.code c <=? 70)).

(* ===================================================================== *)
(** * More concrete stores and requests *)
(* ===================================================================== *)

Module Sample2.
Import SignatureCodec Sample.

Definition partner : Issue.world :=
  Issue.World "s3cret" 1700000000000000
    (fun i => "tok-" +:+ Py.str_of_int (Z.of_nat i))
    "https://reelmind.aijob.com.tw".

Definition course_sale : Issue.body :=
  Issue.Body "" "course" (Some "C-2001") (Some "lin@example.com") None "yearly" 3990 "".

Definition trial_sale : Issue.body :=
  Issue.Body "" "course" (Some "C-2002") (Some "lin@example.com") None "trial" 0 "".

Definition signed_issue (b : Issue.body) : Issue.request := Issue.Request "s3cret" (Some b).

(** A gateway that accepts the refund. *)
Definition e_refund : env :=
  Env secrets (Some "3002607") true true false
      1700000000000000 (fun _ _ => None) (fun _ _ => None) (Some (200, "RtnCode=1&RtnMsg=ok"))
      1700000000 "9f3ac41d2b7e4c0f8a6d5e4f3a2b1c0d" "2023/11/15 06:13:20"
      "https://api.aijob.com.tw" "https://reelmind.aijob.com.tw/payment-result.html".



(** The links and the errors of an answer of the issuing endpoint. *)
Definition issued_links (out : Store.db * Issue.response) : list Issue.activation_link :=
  match snd out with
  | Issue.Issued links _ => links
  | _ => []
  end.

Definition issued_errors (out : Store.db * Issue.response) : list string :=
  match snd out with
  | Issue.Issued _ errors => errors
  | _ => []
  end.


(** A failure notification that repeats the reference of a paid order. *)
Definition failure_replay : dict string :=
  Props.signed secrets (callback order_id "10100058" "3990").

End Sample2.

(* ===================================================================== *)
(** * Properties *)
(* ===================================================================== *)

(** ** The hash against the FIPS 180-4 test vectors *)
Example sha256_abc :
  Py.upper (Sha256.hexdigest "abc") =
  "BA7816BF8F01CFEA414140DE5DAE2223B00361A396177A9CB410FF61F20015AD"%string.
Proof. vm_compute. reflexivity. Qed.

Example sha256_empty :
  Py.upper (Sha256.hexdigest "") =
  "E3B0C44298FC1C149AFBF4C8996FB92427AE41E4649B934CA495991B7852B855"%string.
Proof. vm_compute. reflexivity. Qed.

Example sha256_two_blocks :
  Py.upper (Sha256.hexdigest "abcdbcdecdefdefgefghfghighijhijkijkljklmklmnlmnomnopnopq") =
  "248D6A61D20638B8E5C026930C3E6039A33CE45964FF2167F6ECEDD419DB06C1"%string.
Proof. vm_compute. reflexivity. Qed.


Section StringOrder.

Lemma string_compare_refl (s : string) : String.compare s s = Eq.
Proof.
  induction s as [|c s IH]; simpl; [reflexivity|].
  unfold Ascii.compare. rewrite N.compare_refl. exact IH.
Qed.

Lemma string_leb_trans (s1 s2 s3 : string) :
  String.leb s1 s2 = true -> String.leb s2 s3 = true -> String.leb s1 s3 = true.
Proof.
  unfold String.leb. revert s2 s3.
  induction s1 as [|a s1 IH]; intros [|b s2] [|c s3]; simpl; try congruence.
  unfold Ascii.compare.
  destruct (N.compare_spec (N_of_ascii a) (N_of_ascii b)) as [Hab|Hab|Hab];
    destruct (N.compare_spec (N_of_ascii b) (N_of_ascii c)) as [Hbc|Hbc|Hbc];
    try congruence; intros H1 H2.
  - rewrite Hab, Hbc, N.compare_refl. eapply IH; eassumption.
  - rewrite Hab. apply N.compare_lt_iff in Hbc. rewrite Hbc. reflexivity.
  - rewrite <- Hbc. apply N.compare_lt_iff in Hab. rewrite Hab. reflexivity.
  - assert (Hac : (N_of_ascii a < N_of_ascii c)%N) by lia.
    apply N.compare_lt_iff in Hac. rewrite Hac. reflexivity.
Qed.

End StringOrder.

Section SortedItems.
Import SignatureCodec.

Lemma insert_item_comm (x y : string * string) (l : list (string * string)) :
  sort_key x <> sort_key y ->
  insert_item x (insert_item y l) = insert_item y (insert_item x l).
Proof.
  intros Hxy.
  assert (Hone : String.leb (sort_key x) (sort_key y) = true ->
                 String.leb (sort_key y) (sort_key x) = true -> False).
  { intros H1 H2. apply Hxy. apply String.leb_antisym; assumption. }
  assert (Hsome : String.leb (sort_key x) (sort_key y) = false ->
                  String.leb (sort_key y) (sort_key x) = false -> False).
  { intros H1 H2. destruct (String.leb_total (sort_key x) (sort_key y)); congruence. }
  induction l as [|z l IH]; simpl.
  - destruct (String.leb (sort_key x) (sort_key y)) eqn:Exy,
             (String.leb (sort_key y) (sort_key x)) eqn:Eyx;
      first [reflexivity | exfalso; auto].
  - destruct (String.leb (sort_key y) (sort_key z)) eqn:Eyz,
             (String.leb (sort_key x) (sort_key z)) eqn:Exz;
      destruct (String.leb (sort_key x) (sort_key y)) eqn:Exy,
               (String.leb (sort_key y) (sort_key x)) eqn:Eyx;
      simpl; rewrite ?Exy, ?Eyx, ?Eyz, ?Exz; simpl; rewrite ?Exy, ?Eyx, ?Eyz, ?Exz;
      try reflexivity; try (exfalso; auto; fail).
    all: try (rewrite (string_leb_trans _ _ _ Exy Eyz) in Exz; discriminate).
    all: try (rewrite (string_leb_trans _ _ _ Eyx Exz) in Eyz; discriminate).
    all: rewrite IH; reflexivity.
Qed.

End SortedItems.

Section Canonical.
Import SignatureCodec Props.

Lemma dict_set_fresh {A} (k : string) (v : A) (d : dict A) :
  ~ In k (map fst d) -> dict_set k v d = d ++ [(k, v)].
Proof.
  induction d as [|[k' v'] d IH]; simpl; intros Hk; [reflexivity|].
  destruct (String.eqb_spec k' k) as [->|Hne].
  - exfalso. apply Hk. left. reflexivity.
  - rewrite IH; [reflexivity|]. intros Hin. apply Hk. right. exact Hin.
Qed.

Lemma keys_kept (p : dict value) (k : string) :
  In k (map fst (flat_map kept p)) -> In k (map fst p).
Proof.
  induction p as [|[k' v] p IH]; simpl; [tauto|].
  unfold kept at 1; simpl. destruct (str_value v); simpl; intros H.
  - destruct H as [H|H]; [left; exact H | right; apply IH; exact H].
  - right. apply IH. exact H.
Qed.

Lemma process_params_acc (p : dict value) (acc : dict string) :
  List.NoDup (map fst p) ->
  (forall k, In k (map fst p) -> ~ In k (map fst acc)) ->
  fold_left
    (fun acc kv =>
       match str_value (snd kv) with
       | None => acc
       | Some s => dict_set (fst kv) s acc
       end) p acc
  = acc ++ flat_map kept p.
Proof.
  revert acc. induction p as [|[k v] p IH]; simpl; intros acc Hnd Hfresh.
  - rewrite app_nil_r. reflexivity.
  - inversion Hnd as [|? ? Hk Hnd']; subst.
    unfold kept at 1; simpl. destruct (str_value v) as [s|] eqn:Ev.
    + rewrite dict_set_fresh by (apply Hfresh; left; reflexivity).
      rewrite IH; [rewrite <- app_assoc; reflexivity | exact Hnd' |].
      intros k' Hk' Hin. rewrite map_app in Hin. apply in_app_or in Hin.
      destruct Hin as [Hin|[Hin|[]]].
      * exact (Hfresh k' (or_intror Hk') Hin).
      * simpl in Hin. subst k'. exact (Hk Hk').
    + apply IH; [exact Hnd'|]. intros k' Hk'. apply Hfresh. right. exact Hk'.
Qed.

Lemma process_params_flat (p : dict value) :
  List.NoDup (map fst p) -> process_params p = flat_map kept p.
Proof.
  intros Hnd. unfold process_params.
  rewrite process_params_acc; [reflexivity | exact Hnd | intros k _ []].
Qed.

Lemma filter_absent (k : string) (d : dict string) :
  ~ In k (map fst d) ->
  List.filter (fun kv => negb (String.eqb (fst kv) k)) d = d.
Proof.
  induction d as [|[k' v] d IH]; simpl; intros Hk; [reflexivity|].
  destruct (String.eqb_spec k' k) as [->|Hne]; simpl.
  - exfalso. apply Hk. left. reflexivity.
  - rewrite IH; [reflexivity|]. intros Hin. apply Hk. right. exact Hin.
Qed.

Lemma dict_pop_filter (k : string) (d : dict string) :
  List.NoDup (map fst d) ->
  dict_pop k d = List.filter (fun kv => negb (String.eqb (fst kv) k)) d.
Proof.
  induction d as [|[k' v] d IH]; simpl; intros Hnd; [reflexivity|].
  inversion Hnd as [|? ? Hk Hnd']; subst.
  destruct (String.eqb_spec k' k) as [->|Hne]; simpl.
  - symmetry. apply filter_absent. exact Hk.
  - rewrite IH by exact Hnd'. reflexivity.
Qed.

Lemma nodup_kept (p : dict value) :
  List.NoDup (map fst p) -> List.NoDup (map fst (flat_map kept p)).
Proof.
  induction p as [|[k v] p IH]; simpl; intros Hnd; [constructor|].
  inversion Hnd as [|? ? Hk Hnd']; subst.
  unfold kept at 1; simpl. destruct (str_value v); simpl.
  - constructor; [|apply IH; exact Hnd'].
    intros Hin. apply Hk. apply keys_kept. exact Hin.
  - apply IH. exact Hnd'.
Qed.

Lemma popped_entries (p : dict value) :
  List.NoDup (map fst p) ->
  dict_pop "CheckMacValue" (process_params p) = entries p.
Proof.
  intros Hnd. rewrite process_params_flat by exact Hnd.
  rewrite dict_pop_filter by (apply nodup_kept; exact Hnd). reflexivity.
Qed.

Lemma lower_keys_nodup (p : dict value) :
  List.NoDup (map (fun kv => Py.lower (fst kv)) p) -> List.NoDup (map fst p).
Proof.
  intros H. apply (List.NoDup_map_inv Py.lower). rewrite map_map. exact H.
Qed.

Lemma entries_cons (x : string * value) (p : dict value) :
  entries (x :: p) = List.filter not_mac (kept x) ++ entries p.
Proof. unfold entries; simpl. apply List.filter_app. Qed.

Lemma kept_cases (x : string * value) :
  List.filter not_mac (kept x) = [] \/
  exists s, List.filter not_mac (kept x) = [(fst x, s)].
Proof.
  unfold kept. destruct (str_value (snd x)) as [s|]; simpl; [|left; reflexivity].
  destruct (not_mac (fst x, s)); [right; exists s; reflexivity | left; reflexivity].
Qed.

Lemma sorted_items_app (a b : list (string * string)) :
  sorted_items (a ++ b) = fold_right insert_item (sorted_items b) a.
Proof. unfold sorted_items. apply fold_right_app. Qed.

Lemma sorted_entries_perm (p1 p2 : dict value) :
  Permutation p1 p2 ->
  List.NoDup (map (fun kv => Py.lower (fst kv)) p1) ->
  sorted_items (entries p1) = sorted_items (entries p2).
Proof.
  induction 1 as [|x l l' Hp IH|x y l|l l' l'' Hp1 IH1 Hp2 IH2]; intros Hnd.
  - reflexivity.
  - inversion Hnd as [|? ? _ Hnd']; subst.
    rewrite !entries_cons, !sorted_items_app, IH by exact Hnd'. reflexivity.
  - inversion Hnd as [|? ? Hy Hnd']; subst.
    assert (Hne : Py.lower (fst x) <> Py.lower (fst y)).
    { intros Heq. apply Hy. left. exact Heq. }
    rewrite !entries_cons, !sorted_items_app.
    destruct (kept_cases x) as [Ex|[sx Ex]], (kept_cases y) as [Ey|[sy Ey]];
      rewrite Ex, Ey; simpl; try reflexivity.
    apply insert_item_comm. unfold sort_key; simpl. congruence.
  - rewrite IH1 by exact Hnd. apply IH2.
    eapply Permutation_NoDup; [|exact Hnd].
    apply Permutation_map. exact Hp1.
Qed.

Lemma canonical_perm (hash_key hash_iv : string) (p1 p2 : dict value) :
  Permutation p1 p2 ->
  List.NoDup (map (fun kv => Py.lower (fst kv)) p1) ->
  canonical hash_key hash_iv p1 = canonical hash_key hash_iv p2.
Proof.
  intros Hp Hnd. unfold canonical.
  assert (Hnd2 : List.NoDup (map (fun kv => Py.lower (fst kv)) p2)).
  { eapply Permutation_NoDup; [|exact Hnd]. apply Permutation_map. exact Hp. }
  rewrite !popped_entries by (apply lower_keys_nodup; assumption).
  rewrite (sorted_entries_perm p1 p2 Hp Hnd). reflexivity.
Qed.

Lemma configured_mac (c : config) (p : dict value) :
  configured c = true ->
  gen_check_mac_value c p =
    Some (Py.upper (Sha256.hexdigest
            (canonical (opt_strip (ECPAY_HASH_KEY c)) (opt_strip (ECPAY_HASH_IV c)) p))).
Proof.
  unfold configured, gen_check_mac_value. intros H.
  apply andb_prop in H. destruct H as [Hk Hi].
  assert (Hopt : forall o, ascii_secret o = true ->
                           opt_truthy o = true /\ Py.truthy (opt_strip o) = true).
  { intros [s|]; simpl; [|discriminate]. intros Hs.
    apply andb_prop in Hs. destruct Hs as [_ Hs]. split; [|exact Hs].
    destruct s; [discriminate | reflexivity]. }
  destruct (Hopt _ Hk) as [Hk1 Hk2], (Hopt _ Hi) as [Hi1 Hi2].
  rewrite Hk1, Hi1, Hk2, Hi2. reflexivity.
Qed.

(** C5, amended - with both secrets configured, [gen_check_mac_value]
    returns the same MAC for every insertion order of a parameter dict whose
    keys (ASCII field names) stay pairwise distinct once lower-cased. *)
Theorem sign_order_independent (c : config) (p1 p2 : dict value) :
  configured c = true ->
  distinct_fields p1 ->
  Permutation p1 p2 ->
  exists mac,
    gen_check_mac_value c p1 = Some mac /\ gen_check_mac_value c p2 = Some mac.
Proof.
  intros Hc [_ Hnd] Hp. rewrite !(configured_mac c _ Hc).
  rewrite (canonical_perm _ _ p1 p2 Hp Hnd). eexists. split; reflexivity.
Qed.

End Canonical.

Section WebhookFacts.
Import SignatureCodec Webhook Props.

Variables (e : env) (r : request).
Let p := params r.
Let merchant_trade_no := get_str "MerchantTradeNo" p.

Lemma verified_gates :
  verified e r = true ->
  (negb (is_ecpay_ip r) && production e = false) /\
  verify_ecpay_signature (cfg e) (of_form p) = true.
Proof.
  unfold verified. intros H. apply andb_prop in H. destruct H as [H1 H2].
  split; [apply negb_true_iff; exact H1 | exact H2].
Qed.


Lemma webhook_failure (d : Store.db) :
  verified e r = true ->
  get_str "RtnCode" p <> "1"%string ->
  ecpay_webhook e r d =
    (Store.update_order merchant_trade_no (set_failed p)
       (fun o => [OrderStatusSet merchant_trade_no (Order.payment_status o) failed]) d,
     ACK_OK).
Proof.
  intros Hv Hc. apply verified_gates in Hv. destruct Hv as [Hip Hmac].
  unfold ecpay_webhook. fold p. rewrite Hip, Hmac.
  apply String.eqb_neq in Hc. rewrite Hc. simpl. reflexivity.
Qed.

Lemma webhook_unverified (d : Store.db) :
  verify_ecpay_signature (cfg e) (of_form p) = false ->
  ecpay_webhook e r d = (d, ACK_FAIL).
Proof.
  intros Hmac. unfold ecpay_webhook. fold p. rewrite Hmac.
  destruct (negb (is_ecpay_ip r) && production e); reflexivity.
Qed.

End WebhookFacts.

Section StoreFacts.

Lemma orders_subscribe_user (u : string) (d : Store.db) :
  Store.orders (Store.subscribe_user u d) = Store.orders d.
Proof. unfold Store.subscribe_user. destruct (Store.user_auth d !! u); reflexivity. Qed.

Lemma update_order_found (k : string) f w (d : Store.db) (o : Order.t) :
  Store.orders d !! k = Some o ->
  Store.update_order k f w d = Store.with_orders (<[k := f o]>) (w o) d.
Proof. intros H. unfold Store.update_order. rewrite H. reflexivity. Qed.

Lemma update_order_missing (k : string) f w (d : Store.db) :
  Store.orders d !! k = None -> Store.update_order k f w d = d.
Proof. intros H. unfold Store.update_order. rewrite H. reflexivity. Qed.



End StoreFacts.

Section Settle.
Import SignatureCodec Webhook Props.

Lemma atm_is_not_credit (payment_type : string) :
  is_atm_cvs payment_type = true -> is_credit_linepay payment_type = false.
Proof.
  unfold is_atm_cvs. intros H.
  apply orb_prop in H. destruct H as [H|H]; [apply orb_prop in H; destruct H as [H|H]|];
    apply String.eqb_eq in H; subst; reflexivity.
Qed.

Variables (e : env) (p : dict string) (merchant_trade_no : string).






End Settle.

Section WebhookClaims.
Import SignatureCodec Webhook Props.





(** C6 - a callback whose MAC does not verify is answered "0|FAIL" and
    changes no row of any table. *)
Theorem tampered_callback_mutates_nothing (e : env) (r : request) (d : Store.db) :
  verify_ecpay_signature (cfg e) (of_form (params r)) = false ->
  ecpay_webhook e r d = (d, "0|FAIL"%string).
Proof. apply webhook_unverified. Qed.



(** The two handlers of the gateway's notification disagree on the two_year
    tier: the webhook gives it the yearly duration, [ecpay_return_url] gives
    it 730 days. *)
Lemma two_year_expiry_differs (paid_at : Z) :
  expires_dt false "two_year" paid_at = paid_at + timedelta_days 365 /\
  return_url_expires_dt false "two_year" paid_at = paid_at + timedelta_days 730.
Proof. split; reflexivity. Qed.

End WebhookClaims.

Section Transitions.
Import SignatureCodec Webhook Props.




End Transitions.

Section OrderServiceFacts.
Import SignatureCodec OrderService Props.

(** What a request that is answered with the checkout form went through. *)
Lemma checkout_form_inv (e : env) (u : option string) (b : body) (d : Store.db)
    (data : dict value) :
  snd (create_payment_order e u b d) = CheckoutForm data ->
  exists uid pl mac,
    u = Some uid /\ plan b = Some pl /\
    String.eqb pl "lifetime" = false /\
    Validate.validate_plan_type pl = true /\
    gen_check_mac_value (cfg e)
      (ecpay_data e (make_trade_no e uid) pl (order_amount pl (amount b)) b) = Some mac /\
    data = dict_set "CheckMacValue" (VStr mac)
             (ecpay_data e (make_trade_no e uid) pl (order_amount pl (amount b)) b) /\
    fst (create_payment_order e u b d) =
      fst (insert_order (make_trade_no e uid)
             (new_order uid pl (order_amount pl (amount b)) b) d).
Proof.
  unfold create_payment_order.
  destruct u as [uid|]; [|discriminate].
  destruct (negb (Py.truthy uid)); [discriminate|].
  destruct (negb (config_complete e)); [discriminate|].
  destruct (plan b) as [pl|]; [|discriminate].
  destruct (negb (Py.truthy pl) || negb (Validate.validate_plan_type pl)) eqn:Ev;
    [discriminate|].
  destruct (String.eqb pl "lifetime") eqn:El; [discriminate|].
  destruct (negb (buyer_fields_ok uid b)); [discriminate|].
  destruct (gen_check_mac_value _ _) as [mac|] eqn:Em; [|discriminate].
  simpl. intros H. injection H as <-.
  apply orb_false_elim in Ev. destruct Ev as [_ Ev]. apply negb_false_iff in Ev.
  exists uid, pl, mac. repeat split; auto.
Qed.





End OrderServiceFacts.

Section RedeemFacts.
Import Redeem Props.



Lemma grant_activations (e : env) (r : request) (row : Activation.t) (uid : string)
    (expires : Z) (d : Store.db) :
  Store.license_activations (grant e r row uid expires d) = Store.license_activations d.
Proof.
  unfold grant, record_order, ensure_subscribed, Store.subscribe_user, upsert_license.
  repeat match goal with
         | |- context [match ?x with _ => _ end] => destruct x; simpl
         end; reflexivity.
Qed.

(** The conditional update that finds the row already [activated] changes
    no row: the request is answered that the link has been used and no
    license is written. *)
Lemma zero_rows_is_conflict (e : env) (r : request) (d : Store.db)
    (row cur : Activation.t) (uid : string) (expires : Z) :
  Store.license_activations d !! token r = Some cur ->
  Activation.status cur = act_activated ->
  step e r (Activate row uid expires) d = (Done LinkUsed, d).
Proof.
  intros Hcur Hst. simpl. unfold conditional_update. rewrite Hcur.
  rewrite bool_decide_eq_true_2 by exact Hst. reflexivity.
Qed.

(** The conditional update on a row that is not [activated] changes one
    row, whatever else the status is: an [expired] row is activated too. *)
Lemma one_row_unless_activated (e : env) (r : request) (d : Store.db)
    (row cur : Activation.t) (uid : string) (expires : Z) :
  Store.license_activations d !! token r = Some cur ->
  Activation.status cur <> act_activated ->
  fst (step e r (Activate row uid expires) d) = Grant row uid expires.
Proof.
  intros Hcur Hst. simpl. unfold conditional_update. rewrite Hcur.
  rewrite bool_decide_eq_false_2 by exact Hst. reflexivity.
Qed.

(** Marking a link expired does not look at the status it overwrites. *)
Lemma mark_expired_overwrites (tok : string) (d : Store.db) (cur : Activation.t) :
  Store.license_activations d !! tok = Some cur ->
  Activation.status <$> (Store.license_activations (mark_expired tok d) !! tok)
    = Some act_expired.
Proof.
  intros Hcur. unfold mark_expired. rewrite Hcur. simpl.
  rewrite lookup_insert_eq. reflexivity.
Qed.


End RedeemFacts.

Section RaceInvariant.
Import Redeem Race.

Variables (e : env) (tok : string) (link : option (option Z)).

Lemma total_insert (p : thread -> bool) (ts : list thread) (i : nat) (t t' : thread) :
  ts !! i = Some t ->
  (total p (<[i := t']> ts) + weight p t = total p ts + weight p t')%nat.
Proof.
  revert i. induction ts as [|x ts IH]; intros [|i] H; simpl in *; try discriminate.
  - injection H as ->. lia.
  - specialize (IH i H). lia.
Qed.

Lemma journal_grant (r : request) (row : Activation.t) (uid : string)
    (expires : Z) (d : Store.db) :
  exists ws,
    Store.journal (grant e r row uid expires d) = Store.journal d ++ LicenseUpserted uid :: ws /\
    Forall (fun w => match w with
                     | UserSubscribed _ | OrderInserted _ => True
                     | _ => False
                     end) ws.
Proof.
  unfold grant, record_order, ensure_subscribed, Store.subscribe_user, upsert_license.
  repeat match goal with
         | |- context [match ?x with _ => _ end] => destruct x; simpl
         end;
    rewrite <- ?app_assoc; simpl; eexists; (split; [reflexivity|]);
    repeat constructor.
Qed.

Lemma filter_side_writes (q : write -> bool) (ws : list write) :
  (forall u, q (UserSubscribed u) = false) ->
  (forall o, q (OrderInserted o) = false) ->
  Forall (fun w => match w with
                   | UserSubscribed _ | OrderInserted _ => True
                   | _ => False
                   end) ws ->
  List.filter q ws = [].
Proof.
  intros H1 H2 H. induction H as [|w ws Hw _ IH]; simpl; [reflexivity|].
  destruct w; try contradiction; rewrite ?H1, ?H2; exact IH.
Qed.

Lemma reply_not_granted (r : request) (row : Activation.t) (d : Store.db) :
  weight granted (r, Done (already_activated_reply r row d)) = 0%nat.
Proof.
  unfold already_activated_reply.
  repeat match goal with
         | |- context [match ?x with _ => _ end] => destruct x; simpl
         end; reflexivity.
Qed.

Lemma finished_granted (t : thread) : (weight finished t <= weight granted t)%nat.
Proof.
  destruct t as [r ph]. unfold weight, finished, granted. simpl.
  destruct ph as [| | | |resp]; try lia; destruct resp; lia.
Qed.

Ltac no_gain :=
  match goal with
  | H0 : weight _ _ = 0%nat, H1 : weight _ _ = 1%nat |- _ =>
      exfalso; cbn in H0, H1; congruence
  end.

(** One statement of a request that is in time. *)
Lemma step_effect (r : request) (ph ph' : phase) (d d' : Store.db) :
  token r = tok ->
  in_time e link r ->
  marking (r, ph) = false ->
  link_of tok d = link ->
  step e r ph d = (ph', d') ->
  link_of tok d' = link /\
  marking (r, ph') = false /\
  (Store.count_writes (is_activation_of tok) d' + weight granted (r, ph)
   = Store.count_writes (is_activation_of tok) d + weight granted (r, ph'))%nat /\
  (Store.count_writes is_license_upsert d' + weight finished (r, ph)
   = Store.count_writes is_license_upsert d + weight finished (r, ph'))%nat /\
  (weight granted (r, ph) <= weight granted (r, ph'))%nat /\
  (activated_in tok d -> activated_in tok d') /\
  (weight granted (r, ph) = 0%nat -> weight granted (r, ph') = 1%nat ->
   ~ activated_in tok d /\ activated_in tok d').
Proof.
  intros Htok Htime Hmark Hlink Hstep.
  destruct ph as [|x|row uid expires|row uid expires|resp]; simpl in Hstep.
  - (* the SELECT *)
    injection Hstep as <- <-.
    assert (Hph : marking (r, read_row e r d) = false /\
                  weight granted (r, read_row e r d) = 0%nat).
    { unfold read_row.
      destruct (negb (Py.truthy (token r))); [split; reflexivity|].
      destruct ((200 <? Py.len (token r)) || _); [split; reflexivity|].
      destruct (Store.license_activations d !! token r) as [row|] eqn:Erow;
        [|split; reflexivity].
      destruct (bool_decide (Activation.status row = act_activated));
        [split; [reflexivity | apply reply_not_granted]|].
      unfold in_time in Htime. unfold link_of in Hlink.
      rewrite <- Htok, Erow in Hlink. simpl in Hlink. rewrite <- Hlink in Htime.
      destruct (stamp_truthy e (Activation.link_expires_at row)) as [x|].
      - apply Z.ltb_ge in Htime. rewrite Htime.
        destruct (current_user_id r) as [u|]; [|split; reflexivity].
        destruct (Py.truthy u); split; reflexivity.
      - destruct (current_user_id r) as [u|]; [|split; reflexivity].
        destruct (Py.truthy u); split; reflexivity. }
    destruct Hph as [Hm Hg].
    pose proof (finished_granted (r, read_row e r d)) as Hf.
    rewrite Hg in *.
    repeat split; auto; try (cbn; lia); try (intros _ H; discriminate); try no_gain.
  - discriminate.
  - (* the conditional UPDATE *)
    unfold conditional_update in Hstep. rewrite Htok in Hstep.
    destruct (Store.license_activations d !! tok) as [cur|] eqn:Ecur.
    + destruct (bool_decide (Activation.status cur = act_activated)) eqn:Est.
      * simpl in Hstep. injection Hstep as <- <-.
        repeat split; auto; try (cbn; lia); try (intros _ H; discriminate); try no_gain.
      * simpl in Hstep. injection Hstep as <- <-.
        apply bool_decide_eq_false_1 in Est.
        split; [unfold link_of in *; simpl; rewrite lookup_insert_eq;
                rewrite Ecur in Hlink; simpl in *; exact Hlink|].
        split; [reflexivity|].
        split; [unfold Store.count_writes; simpl;
                rewrite List.filter_app, length_app; simpl;
                rewrite String.eqb_refl; cbn; lia|].
        split; [unfold Store.count_writes; simpl;
                rewrite List.filter_app, length_app; simpl; cbn; lia|].
        split; [cbn; lia|].
        split; [intros _; unfold activated_in; simpl; rewrite lookup_insert_eq; reflexivity|].
        intros _ _. split.
        -- unfold activated_in. rewrite Ecur. simpl. congruence.
        -- unfold activated_in. simpl. rewrite lookup_insert_eq. reflexivity.
    + simpl in Hstep. injection Hstep as <- <-.
      repeat split; auto; try (cbn; lia); try (intros _ H; discriminate); try no_gain.
  - (* the writes that grant the entitlement *)
    injection Hstep as <- <-.
    destruct (journal_grant r row uid expires d) as (ws & Hj & Hws).
    split; [unfold link_of; rewrite grant_activations; exact Hlink|].
    split; [reflexivity|].
    split; [unfold Store.count_writes; rewrite Hj, List.filter_app, length_app; simpl;
            rewrite (filter_side_writes _ ws) by (auto || exact Hws); cbn; lia|].
    split; [unfold Store.count_writes; rewrite Hj, List.filter_app, length_app; simpl;
            rewrite (filter_side_writes _ ws) by (auto || exact Hws); cbn; lia|].
    split; [cbn; lia|].
    split; [unfold activated_in; rewrite grant_activations; auto|].
    cbn. intros H; discriminate.
  - injection Hstep as <- <-.
    repeat split; auto; try lia; try (intros H1 H2; rewrite H1 in H2; discriminate); try no_gain.
Qed.

Lemma race_inv_step (a0 u0 : nat) (i : nat) (ts ts' : list thread) (d d' : Store.db) :
  race_inv e tok link a0 u0 ts d ->
  run_one e i ts d = (ts', d') ->
  race_inv e tok link a0 u0 ts' d'.
Proof.
  intros (Hreq & Hmark & Hlink & Hone & Hact & Hja & Hju) Hrun.
  unfold run_one in Hrun.
  destruct (ts !! i) as [[r ph]|] eqn:Ei.
  2:{ injection Hrun as <- <-. repeat split; assumption. }
  destruct (step e r ph d) as [ph' d1] eqn:Hstep.
  injection Hrun as <- <-.
  pose proof (Forall_lookup_1 _ _ _ _ Hreq Ei) as [Htok Htime].
  pose proof (Forall_lookup_1 _ _ _ _ Hmark Ei) as Hm.
  simpl in Htok, Htime.
  destruct (step_effect r ph ph' d d1 Htok Htime Hm Hlink Hstep)
    as (Hlink' & Hm' & Ha & Hu & Hmono & Hkeep & Hgain).
  pose proof (total_insert granted ts i (r, ph) (r, ph') Ei) as Hg.
  pose proof (total_insert finished ts i (r, ph) (r, ph') Ei) as Hf.
  assert (Hw : forall q (t : thread), (weight q t <= 1)%nat).
  { intros q t0. unfold weight. destruct (q t0); lia. }
  pose proof (Hw granted (r, ph')) as Hw1.
  assert (Hcase : weight granted (r, ph') = weight granted (r, ph) \/
                  (weight granted (r, ph) = 0%nat /\ weight granted (r, ph') = 1%nat))
    by lia.
  unfold race_inv. unfold thread in *.
  split; [apply Forall_insert; [exact Hreq | split; assumption]|].
  split; [apply Forall_insert; [exact Hmark | exact Hm']|].
  split; [exact Hlink'|].
  destruct Hcase as [Hsame|[H0 H1]].
  - split; [lia|]. split; [intros Ht; apply Hkeep, Hact; lia|]. split; lia.
  - destruct (Hgain H0 H1) as [Hnot Hnow].
    assert (Hz : total granted ts = 0%nat).
    { destruct (total granted ts) as [|[|n]] eqn:Et; [reflexivity | | lia].
      exfalso. apply Hnot, Hact. reflexivity. }
    split; [lia|]. split; [intros _; exact Hnow|]. split; lia.
Qed.

Lemma race_inv_run (a0 u0 : nat) (schedule : list nat) (ts ts' : list thread)
    (d d' : Store.db) :
  race_inv e tok link a0 u0 ts d ->
  run e schedule ts d = (ts', d') ->
  race_inv e tok link a0 u0 ts' d'.
Proof.
  revert ts d. induction schedule as [|i rest IH]; intros ts d Hinv Hrun; simpl in Hrun.
  - injection Hrun as <- <-. exact Hinv.
  - destruct (run_one e i ts d) as [ts1 d1] eqn:H1.
    eapply IH; [|exact Hrun]. eapply race_inv_step; eassumption.
Qed.

Lemma total_start (q : thread -> bool) (rs : list request) :
  (forall r, q (r, Start) = false) -> total q (start rs) = 0%nat.
Proof.
  intros Hq. induction rs as [|r rs IH]; simpl; [reflexivity|].
  unfold weight. rewrite Hq, IH. reflexivity.
Qed.

Lemma total_finished_granted (ts : list thread) :
  (total finished ts <= total granted ts)%nat.
Proof.
  induction ts as [|t ts IH]; simpl; [lia|].
  pose proof (finished_granted t). lia.
Qed.

End RaceInvariant.

Section RaceTheorem.
Import Redeem Race.

(** When every request is in time, the conditional update lets one request
    through at most, whatever the interleaving. *)
Theorem at_most_one_redemption_in_time (e : env) (tok : string) (rs : list request)
    (d : Store.db) (schedule : list nat) :
  Forall (fun r => token r = tok /\ in_time e (link_of tok d) r) rs ->
  let ts' := fst (run e schedule (start rs) d) in
  let d' := snd (run e schedule (start rs) d) in
  (total granted ts' <= 1)%nat /\
  (Store.count_writes (is_activation_of tok) d'
   <= Store.count_writes (is_activation_of tok) d + 1)%nat /\
  (Store.count_writes is_license_upsert d'
   <= Store.count_writes is_license_upsert d + 1)%nat.
Proof.
  intros Hrs ts' d'.
  assert (Hinit : race_inv e tok (link_of tok d)
                    (Store.count_writes (is_activation_of tok) d)
                    (Store.count_writes is_license_upsert d) (start rs) d).
  { unfold race_inv. rewrite !total_start by reflexivity.
    split; [unfold start; apply Forall_fmap; exact Hrs|].
    split; [unfold start; apply Forall_fmap, Forall_forall; reflexivity|].
    repeat split; try lia; discriminate. }
  destruct (run e schedule (start rs) d) as [ts1 d1] eqn:Hrun.
  destruct (race_inv_run e tok _ _ _ schedule _ _ _ _ Hinit Hrun)
    as (_ & _ & _ & Hone & _ & Hja & Hju).
  subst ts' d'. simpl.
  pose proof (total_finished_granted ts1). lia.
Qed.

End RaceTheorem.

(* ===================================================================== *)
(** * The properties on concrete stores and requests *)
(* ===================================================================== *)

Section OnSamples.
Import SignatureCodec Props Sample.

Lemma sign_order_independent_witness :
  exists mac,
    gen_check_mac_value secrets fields_1 = Some mac /\
    gen_check_mac_value secrets fields_2 = Some mac.
Proof.
  apply (sign_order_independent secrets fields_1 fields_2).
  - vm_compute. reflexivity.
  - split.
    + repeat constructor.
    + vm_compute. repeat constructor; simpl; intuition discriminate.
  - apply perm_swap.
Defined.

(** C5 as stated fails: two insertion orders of a dict whose keys differ in
    case only are signed differently, because the sort is stable on the
    lower-cased keys. *)
Lemma sign_depends_on_order_of_case_variants :
  configured secrets = true /\
  Forall (fun kv => ascii_string (fst kv) = true) case_keys_1 /\
  List.NoDup (map fst case_keys_1) /\
  Permutation case_keys_1 case_keys_2 /\
  gen_check_mac_value secrets case_keys_1 <> gen_check_mac_value secrets case_keys_2.
Proof.
  split; [vm_compute; reflexivity|].
  split; [repeat constructor|].
  split; [repeat constructor; simpl; intuition discriminate|].
  split; [apply perm_swap|].
  vm_compute. intros H. discriminate H.
Qed.

Lemma tampered_callback_mutates_nothing_witness :
  verify_ecpay_signature secrets (of_form (Webhook.params tampered_delivery)) = false /\
  Webhook.ecpay_webhook e0 tampered_delivery pending_db = (pending_db, "0|FAIL"%string) /\
  Store.status_of order_id pending_db = Some pending.
Proof.
  split; [vm_compute; reflexivity|].
  split; [|vm_compute; reflexivity].
  apply (tampered_callback_mutates_nothing e0 tampered_delivery pending_db).
  vm_compute. reflexivity.
Defined.

(** A callback without a MAC field is rejected as well. *)
Example unsigned_callback_rejected :
  Webhook.ecpay_webhook e0 (Webhook.Request (callback order_id "1" "3990") true) pending_db
    = (pending_db, ACK_FAIL).
Proof. vm_compute. reflexivity. Qed.














End OnSamples.


(* ===================================================================== *)
(** * Further properties of the signature code *)
(* ===================================================================== *)

Section SignatureMore.
Import SignatureCodec Props.

Lemma keys_dict_set {A} (k : string) (v : A) (d : dict A) :
  map fst (dict_set k v d) = map fst d \/
  (~ In k (map fst d) /\ map fst (dict_set k v d) = map fst d ++ [k]).
Proof.
  induction d as [|[k' v'] d IH]; simpl.
  - right. split; [tauto | reflexivity].
  - destruct (String.eqb_spec k' k) as [->|Hne]; simpl; [left; reflexivity|].
    destruct IH as [IH|[Hk IH]]; rewrite IH; [left; reflexivity|].
    right. split; [|reflexivity]. intros [H|H]; [exact (Hne H) | exact (Hk H)].
Qed.

Lemma nodup_dict_set {A} (k : string) (v : A) (d : dict A) :
  List.NoDup (map fst d) -> List.NoDup (map fst (dict_set k v d)).
Proof.
  intros Hnd. destruct (keys_dict_set k v d) as [E|[Hk E]]; rewrite E; [exact Hnd|].
  apply NoDup_ListNoDup. apply (proj2 (NoDup_app _ _)).
  split; [apply NoDup_ListNoDup; exact Hnd|].
  split; [|apply NoDup_singleton].
  intros x Hx Hin. apply list_elem_of_In in Hx. apply list_elem_of_singleton in Hin.
  subst x. exact (Hk Hx).
Qed.

Lemma dict_get_set {A} (k : string) (v : A) (d : dict A) :
  dict_get k (dict_set k v d) = Some v.
Proof.
  induction d as [|[k' v'] d IH]; simpl.
  - rewrite String.eqb_refl. reflexivity.
  - destruct (String.eqb k' k) eqn:E; simpl; rewrite E; [reflexivity | exact IH].
Qed.

Lemma dict_get_set_other {A} (k k' : string) (v : A) (d : dict A) :
  k <> k' -> dict_get k' (dict_set k v d) = dict_get k' d.
Proof.
  intros Hne. induction d as [|[k0 v0] d IH]; simpl.
  - apply String.eqb_neq in Hne. rewrite Hne. reflexivity.
  - destruct (String.eqb_spec k0 k) as [->|H0]; simpl.
    + apply String.eqb_neq in Hne. rewrite Hne. reflexivity.
    + rewrite IH. reflexivity.
Qed.

(** The MAC field itself never reaches the signed entries. *)
Lemma entries_set_mac (v : value) (p : dict value) :
  entries (dict_set "CheckMacValue" v p) = entries p.
Proof.
  induction p as [|[k' v'] p IH].
  - unfold entries. simpl. unfold kept. simpl. destruct (str_value v); reflexivity.
  - simpl. destruct (String.eqb_spec k' "CheckMacValue") as [->|Hne].
    + rewrite !entries_cons. f_equal.
      unfold kept. simpl. destruct (str_value v), (str_value v'); reflexivity.
    + rewrite !entries_cons, IH. reflexivity.
Qed.

Lemma canonical_set_mac (hash_key hash_iv : string) (v : value) (p : dict value) :
  List.NoDup (map fst p) ->
  canonical hash_key hash_iv (dict_set "CheckMacValue" v p) = canonical hash_key hash_iv p.
Proof.
  intros Hnd. unfold canonical.
  rewrite !popped_entries by (try apply nodup_dict_set; exact Hnd).
  rewrite entries_set_mac. reflexivity.
Qed.

Lemma mac_field_dropped (c : config) (v : value) (p : dict value) :
  List.NoDup (map fst p) ->
  gen_check_mac_value c (dict_set "CheckMacValue" v p) = gen_check_mac_value c p.
Proof.
  intros Hnd. unfold gen_check_mac_value.
  rewrite (canonical_set_mac _ _ v p Hnd). reflexivity.
Qed.

(** X1 - [gen_check_mac_value] drops a MAC field that is already in the
    parameters: setting ["CheckMacValue"] to any value changes neither the
    MAC nor whether one is produced. *)
Theorem sign_ignores_mac_field (c : config) (v : value) (p : dict value) :
  List.NoDup (map fst p) ->
  gen_check_mac_value c (dict_set "CheckMacValue" v p) = gen_check_mac_value c p.
Proof.
  exact (mac_field_dropped c v p).
Qed.

(** X2 - signing then verifying: parameters that carry the MAC which
    [gen_check_mac_value] returned for them pass [verify_ecpay_signature]. *)
Theorem verify_accepts_own_mac (c : config) (p : dict value) (mac : string) :
  List.NoDup (map fst p) ->
  gen_check_mac_value c p = Some mac ->
  verify_ecpay_signature c (dict_set "CheckMacValue" (VStr mac) p) = true.
Proof.
  intros Hnd Hmac. unfold verify_ecpay_signature.
  rewrite dict_get_set, (mac_field_dropped c (VStr mac) p Hnd), Hmac.
  simpl. apply String.eqb_refl.
Qed.

(** X3 - without usable secrets nothing is signed and nothing verifies: when
    a secret is unset, empty or blank, [gen_check_mac_value] raises for every
    parameter dict and [verify_ecpay_signature] answers [False]. *)
Theorem unusable_secrets_fail (c : config) (p : dict value) :
  Py.truthy (opt_strip (ECPAY_HASH_KEY c)) = false \/
  Py.truthy (opt_strip (ECPAY_HASH_IV c)) = false ->
  gen_check_mac_value c p = None /\ verify_ecpay_signature c p = false.
Proof.
  intros H.
  assert (Hgen : gen_check_mac_value c p = None).
  { unfold gen_check_mac_value.
    destruct (opt_truthy (ECPAY_HASH_KEY c)), (opt_truthy (ECPAY_HASH_IV c));
      simpl; try reflexivity.
    destruct H as [H|H]; rewrite H; simpl; [reflexivity|].
    rewrite orb_true_r. reflexivity. }
  split; [exact Hgen|]. unfold verify_ecpay_signature. rewrite Hgen. reflexivity.
Qed.

Lemma entries_app (p1 p2 : dict value) :
  entries (p1 ++ p2) = entries p1 ++ entries p2.
Proof. unfold entries. rewrite flat_map_app. apply List.filter_app. Qed.

(** X4 - an entry whose value is [None] takes no part in the MAC. *)
Theorem none_values_not_signed (c : config) (k : string) (p1 p2 : dict value) :
  List.NoDup (map fst (p1 ++ (k, VNone) :: p2)) ->
  gen_check_mac_value c (p1 ++ (k, VNone) :: p2) = gen_check_mac_value c (p1 ++ p2).
Proof.
  intros Hnd.
  assert (Hnd' : List.NoDup (map fst (p1 ++ p2))).
  { rewrite map_app in *. simpl in Hnd. apply List.NoDup_remove_1 in Hnd. exact Hnd. }
  unfold gen_check_mac_value, canonical.
  rewrite !popped_entries by assumption.
  rewrite !entries_app. rewrite (entries_cons (k, VNone) p2). reflexivity.
Qed.

End SignatureMore.

Section MacFormat.
Import SignatureCodec Props.

Lemma length_append (a b : string) :
  String.length (a +:+ b) = (String.length a + String.length b)%nat.
Proof. induction a as [|c a IH]; simpl; [reflexivity | rewrite IH; reflexivity]. Qed.

Lemma length_map_string (f : ascii -> ascii) (s : string) :
  String.length (Py.map_string f s) = String.length s.
Proof. induction s as [|c s IH]; simpl; [reflexivity | rewrite IH; reflexivity]. Qed.

Lemma forallb_append (q : ascii -> bool) (a b : string) :
  Py.forallb_string q (a +:+ b) = Py.forallb_string q a && Py.forallb_string q b.
Proof.
  induction a as [|c a IH]; simpl; [reflexivity|]. rewrite IH, andb_assoc. reflexivity.
Qed.

Lemma nibble_upper_hex (x : Z) :
  upper_hex (Py.upper_char (Sha256.hex_lower_digit (Z.land x 0xF))) = true.
Proof.
  assert (H : 0 <= Z.land x 0xF < 16).
  { change 0xF with (Z.ones 4). rewrite Z.land_ones by lia.
    apply Z.mod_pos_bound. reflexivity. }
  assert (Hc : Z.land x 0xF = 0 \/ Z.land x 0xF = 1 \/ Z.land x 0xF = 2 \/
               Z.land x 0xF = 3 \/ Z.land x 0xF = 4 \/ Z.land x 0xF = 5 \/
               Z.land x 0xF = 6 \/ Z.land x 0xF = 7 \/ Z.land x 0xF = 8 \/
               Z.land x 0xF = 9 \/ Z.land x 0xF = 10 \/ Z.land x 0xF = 11 \/
               Z.land x 0xF = 12 \/ Z.land x 0xF = 13 \/ Z.land x 0xF = 14 \/
               Z.land x 0xF = 15) by lia.
  repeat (destruct Hc as [Hc|Hc]; [rewrite Hc; reflexivity|]).
  rewrite Hc. reflexivity.
Qed.

Lemma hex_word_format (n : nat) (x : Z) :
  String.length (Py.upper (Sha256.hex_word n x)) = n /\
  Py.forallb_string upper_hex (Py.upper (Sha256.hex_word n x)) = true.
Proof.
  induction n as [|n [IH1 IH2]]; simpl; [split; reflexivity|].
  split; [f_equal; exact IH1|].
  rewrite nibble_upper_hex. exact IH2.
Qed.

Lemma compress_length (h ws : list Z) : length (Sha256.compress h ws) = 8%nat.
Proof. reflexivity. Qed.

Lemma blocks_length (n : nat) (h bs : list Z) :
  length h = 8%nat -> length (Sha256.blocks n h bs) = 8%nat.
Proof.
  revert h bs. induction n as [|n IH]; intros h bs Hh; simpl; [exact Hh|].
  apply IH. apply compress_length.
Qed.

Lemma upper_append (a b : string) : Py.upper (a +:+ b) = Py.upper a +:+ Py.upper b.
Proof.
  unfold Py.upper. induction a as [|c a IH]; simpl; [reflexivity|]. rewrite IH. reflexivity.
Qed.

Lemma hexdigest_format (s : string) :
  String.length (Py.upper (Sha256.hexdigest s)) = 64%nat /\
  Py.forallb_string upper_hex (Py.upper (Sha256.hexdigest s)) = true.
Proof.
  unfold Sha256.hexdigest.
  assert (Hlen : length (Sha256.digest (Py.bytes_of s)) = 8%nat).
  { unfold Sha256.digest. apply blocks_length. reflexivity. }
  assert (Hgen : forall ws,
            String.length
              (Py.upper (fold_right (fun w acc => Sha256.hex_word 8 w +:+ acc) EmptyString ws))
              = (8 * length ws)%nat /\
            Py.forallb_string upper_hex
              (Py.upper (fold_right (fun w acc => Sha256.hex_word 8 w +:+ acc) EmptyString ws))
              = true).
  { induction ws as [|w ws [IH1 IH2]]; [split; reflexivity|].
    cbn [fold_right]. rewrite upper_append, length_append, forallb_append.
    destruct (hex_word_format 8 w) as [H1 H2]. rewrite H1, H2, IH1, IH2.
    split; [simpl; lia | reflexivity]. }
  destruct (Hgen (Sha256.digest (Py.bytes_of s))) as [H1 H2].
  rewrite H1, Hlen. split; [reflexivity | exact H2].
Qed.

(** X5 - every MAC that [gen_check_mac_value] returns is 64 characters long
    and made of the digits and the capitals A to F only. *)
Theorem mac_is_64_upper_hex (c : config) (p : dict value) (mac : string) :
  gen_check_mac_value c p = Some mac ->
  String.length mac = 64%nat /\ Py.forallb_string upper_hex mac = true.
Proof.
  unfold gen_check_mac_value.
  destruct (negb _ || negb _); [discriminate|].
  destruct (negb _ || negb _); [discriminate|].
  intros H. injection H as <-. apply hexdigest_format.
Qed.

End MacFormat.


(* ===================================================================== *)
(** * Further properties of order creation *)
(* ===================================================================== *)

Section StringFacts.

Lemma append_cons (c : ascii) (s t : string) : String c s +:+ t = String c (s +:+ t).
Proof. reflexivity. Qed.

Lemma append_empty_r (s : string) : s +:+ EmptyString = s.
Proof.
  induction s as [|c s IH]; [reflexivity|]. rewrite append_cons, IH. reflexivity.
Qed.

Lemma append_assoc (a b c : string) : (a +:+ b) +:+ c = a +:+ (b +:+ c).
Proof.
  induction a as [|x a IH]; [reflexivity|]. rewrite !append_cons, IH. reflexivity.
Qed.

Lemma prefix_append (s t : string) : String.prefix s (s +:+ t) = true.
Proof.
  induction s as [|x s IH]; [destruct t; reflexivity|].
  rewrite append_cons. simpl. destruct (ascii_dec x x); [exact IH | congruence].
Qed.

Lemma rev_string_twice (s acc acc' : string) :
  Py.rev_string acc' (Py.rev_string acc s) = Py.rev_string (s +:+ acc') acc.
Proof.
  revert acc acc'. induction s as [|c s IH]; intros acc acc'; simpl; [reflexivity|].
  rewrite IH, append_cons. reflexivity.
Qed.

Lemma rev_string_involutive (s : string) :
  Py.rev_string EmptyString (Py.rev_string EmptyString s) = s.
Proof. rewrite rev_string_twice. simpl. apply append_empty_r. Qed.

(** [chop_newline] removes one final newline at most. *)
Lemma chop_newline_cases (s : string) :
  Py.chop_newline s = s \/
  s = Py.chop_newline s +:+ String (Py.chr 10) EmptyString.
Proof.
  unfold Py.chop_newline.
  destruct (Py.rev_string EmptyString s) as [|c r] eqn:Er; [left; reflexivity|].
  destruct (Py.code c =? 10) eqn:Ec; [|left; reflexivity].
  right. apply Z.eqb_eq in Ec.
  assert (Hc : c = Py.chr 10).
  { unfold Py.chr, Py.code in *. rewrite <- Ec, N2Z.id. symmetry. apply ascii_N_embedding. }
  rewrite <- (rev_string_involutive s) at 1. rewrite Er. simpl.
  rewrite <- (rev_string_involutive r) at 1.
  rewrite rev_string_twice. simpl. rewrite Hc. reflexivity.
Qed.

Lemma length_drop (n : nat) (s : string) :
  String.length (Py.drop n s) = (String.length s - n)%nat.
Proof.
  revert s. induction n as [|n IH]; intros [|c s]; simpl; try reflexivity; try lia.
  apply IH.
Qed.

Lemma length_first_n (n : nat) (s : string) :
  (String.length (Py.first_n n s) <= n)%nat.
Proof.
  revert s. induction n as [|n IH]; intros [|c s]; simpl; try lia.
  specialize (IH s). lia.
Qed.

Lemma length_zeros (n : nat) : String.length (Py.zeros n) = n.
Proof. induction n as [|n IH]; simpl; [reflexivity | rewrite IH; reflexivity]. Qed.

Lemma length_zfill (width : nat) (s : string) :
  String.length (Py.zfill width s) = Nat.max width (String.length s).
Proof.
  unfold Py.zfill. destruct s as [|c r]; simpl.
  - rewrite length_zeros. lia.
  - destruct ((Py.code c =? 43) || (Py.code c =? 45)); simpl;
      rewrite length_append, length_zeros; simpl; lia.
Qed.

Lemma ascii_len_char (c : ascii) :
  (Py.code c <? 128) = true -> (Z.land (Py.code c) 0xC0 =? 0x80) = false.
Proof.
  destruct c as [[] [] [] [] [] [] [] []]; vm_compute; intros H;
    first [reflexivity | discriminate H].
Qed.

Lemma ascii_len (s : string) :
  Props.ascii_string s = true -> Py.len s = Z.of_nat (String.length s).
Proof.
  unfold Props.ascii_string. induction s as [|c s IH]; simpl; [reflexivity|].
  intros H. apply andb_prop in H. destruct H as [Hc Hs].
  rewrite (ascii_len_char c Hc), (IH Hs). lia.
Qed.

Lemma forallb_string_impl (q q' : ascii -> bool) (s : string) :
  (forall c, q c = true -> q' c = true) ->
  Py.forallb_string q s = true -> Py.forallb_string q' s = true.
Proof.
  intros Hq. induction s as [|c s IH]; simpl; [reflexivity|].
  intros H. apply andb_prop in H. destruct H as [Hc Hs].
  rewrite (Hq c Hc), (IH Hs). reflexivity.
Qed.

Lemma id_char_ascii (c : ascii) :
  Validate.id_char c = true -> (Py.code c <? 128) = true.
Proof.
  unfold Validate.id_char, Py.isalnum, Py.is_upper, Py.is_lower, Py.is_digit.
  intros H. apply Z.ltb_lt.
  repeat match goal with
         | H : _ || _ = true |- _ => apply orb_prop in H; destruct H as [H|H]
         | H : _ && _ = true |- _ => apply andb_prop in H; destruct H as [? H]
         | H : (_ <=? _) = true |- _ => apply Z.leb_le in H
         | H : (_ =? _) = true |- _ => apply Z.eqb_eq in H
         end; lia.
Qed.

(** A user id that [validate_user_id] accepts is ASCII. *)
Lemma valid_user_id_ascii (uid : string) :
  Validate.validate_user_id uid = true -> Props.ascii_string uid = true.
Proof.
  unfold Validate.validate_user_id, Py.match_plus. intros H.
  apply andb_prop in H. destruct H as [_ H].
  apply andb_prop in H. destruct H as [_ H].
  apply (forallb_string_impl _ (fun c => Py.code c <? 128) _ id_char_ascii) in H.
  unfold Props.ascii_string.
  destruct (chop_newline_cases uid) as [E|E]; [rewrite E in H; exact H|].
  rewrite E, forallb_append, H. reflexivity.
Qed.

End StringFacts.

Section OrderServiceMore.
Import SignatureCodec OrderService Props.

(** The order id is ["RM"], four characters of the user id, at most eight
    digits of the time and at most four of the uuid. *)
Lemma make_trade_no_shape (e : env) (uid : string) :
  Validate.validate_user_id uid = true ->
  String.prefix "RM" (make_trade_no e uid) = true /\
  (6 <= String.length (make_trade_no e uid) <= 18)%nat.
Proof.
  intros Hv. pose proof (ascii_len uid (valid_user_id_ascii uid Hv)) as Hlen.
  unfold make_trade_no. split; [apply prefix_append|].
  rewrite !length_append. change (String.length "RM") with 2%nat.
  assert (Hs : String.length
                 (if 4 <=? Py.len uid then Py.last_n 4 uid else Py.zfill 4 uid) = 4%nat).
  { destruct (4 <=? Py.len uid) eqn:E.
    - apply Z.leb_le in E. unfold Py.last_n. rewrite length_drop. lia.
    - apply Z.leb_gt in E. rewrite length_zfill. lia. }
  rewrite Hs.
  assert (Ht : (String.length (Py.last_n 8 (Py.str_of_int (epoch_seconds e))) <= 8)%nat).
  { unfold Py.last_n. rewrite length_drop. lia. }
  assert (Hu : (String.length (Py.upper (Py.first_n 4 (uuid4_hex e))) <= 4)%nat).
  { unfold Py.upper. rewrite length_map_string. apply length_first_n. }
  lia.
Qed.

(** What a request that is answered with the checkout form went through,
    with the check of the user id. *)
Lemma checkout_form_user (e : env) (u : option string) (b : body) (d : Store.db)
    (data : dict value) :
  snd (create_payment_order e u b d) = CheckoutForm data ->
  exists uid, u = Some uid /\ Validate.validate_user_id uid = true.
Proof.
  unfold create_payment_order.
  destruct u as [uid|]; [|discriminate].
  destruct (negb (Py.truthy uid)); [discriminate|].
  destruct (negb (config_complete e)); [discriminate|].
  destruct (plan b) as [pl|]; [|discriminate].
  destruct (negb (Py.truthy pl) || negb (Validate.validate_plan_type pl)); [discriminate|].
  destruct (String.eqb pl "lifetime"); [discriminate|].
  destruct (negb (buyer_fields_ok uid b)) eqn:Eb; [discriminate|].
  intros _. exists uid. split; [reflexivity|].
  apply negb_false_iff in Eb. unfold buyer_fields_ok in Eb.
  do 5 (apply andb_prop in Eb; destruct Eb as [Eb _]). exact Eb.
Qed.

(** X6 - the order id sent to the gateway starts with ["RM"] and has 18
    characters at most, within the gateway's limit of 20. *)
Theorem order_id_within_gateway_limit
    (e : env) (u : option string) (b : body) (d : Store.db) (data : dict value) :
  snd (create_payment_order e u b d) = CheckoutForm data ->
  exists trade_no,
    dict_get "MerchantTradeNo" data = Some (VStr trade_no) /\
    String.prefix "RM" trade_no = true /\
    (String.length trade_no <= 18)%nat.
Proof.
  intros H. destruct (checkout_form_user e u b d data H) as (uid & -> & Hv).
  destruct (checkout_form_inv e (Some uid) b d data H)
    as (uid' & pl & mac & Hu & _ & _ & _ & _ & -> & _).
  injection Hu as <-.
  exists (make_trade_no e uid). split; [reflexivity|].
  destruct (make_trade_no_shape e uid Hv) as [Hp Hl]. split; [exact Hp | lia].
Qed.

Lemma ecpay_data_keys (e : env) (trade_no pl : string) (amount : Z) (b : body) :
  List.NoDup (map fst (ecpay_data e trade_no pl amount b)).
Proof.
  apply NoDup_ListNoDup. apply (bool_decide_unpack _). vm_compute. exact I.
Qed.

(** X7 - the checkout form carries a MAC of its own fields: the form that
    [create_payment_order] returns passes [verify_ecpay_signature] under
    the same secrets. *)
Theorem checkout_form_verifies
    (e : env) (u : option string) (b : body) (d : Store.db) (data : dict value) :
  snd (create_payment_order e u b d) = CheckoutForm data ->
  verify_ecpay_signature (cfg e) data = true.
Proof.
  intros H. destruct (checkout_form_inv e u b d data H)
    as (uid & pl & mac & _ & _ & _ & _ & Hmac & -> & _).
  unfold verify_ecpay_signature.
  rewrite dict_get_set, (mac_field_dropped _ _ _ (ecpay_data_keys _ _ _ _ _)), Hmac.
  simpl. apply String.eqb_refl.
Qed.

Lemma create_store_cases (e : env) (u : option string) (b : body) (d : Store.db) :
  fst (create_payment_order e u b d) = d \/
  exists trade_no row,
    Order.payment_status row = pending /\
    Store.orders d !! trade_no = None /\
    fst (create_payment_order e u b d)
      = Store.with_orders (<[trade_no := row]>) [OrderInserted trade_no] d.
Proof.
  unfold create_payment_order.
  destruct u as [uid|]; [|left; reflexivity].
  destruct (negb (Py.truthy uid)); [left; reflexivity|].
  destruct (negb (config_complete e)); [left; reflexivity|].
  destruct (plan b) as [pl|]; [|left; reflexivity].
  destruct (negb (Py.truthy pl) || negb (Validate.validate_plan_type pl)); [left; reflexivity|].
  destruct (String.eqb pl "lifetime"); [left; reflexivity|].
  destruct (negb (buyer_fields_ok uid b)); [left; reflexivity|].
  assert (Hins : forall r : response,
            fst (fst (insert_order (make_trade_no e uid)
                        (new_order uid pl (order_amount pl (amount b)) b) d), r) = d \/
            exists trade_no row,
              Order.payment_status row = pending /\
              Store.orders d !! trade_no = None /\
              fst (fst (insert_order (make_trade_no e uid)
                          (new_order uid pl (order_amount pl (amount b)) b) d), r)
                = Store.with_orders (<[trade_no := row]>) [OrderInserted trade_no] d).
  { intros r. unfold insert_order.
    destruct (Store.orders d !! make_trade_no e uid) eqn:E; [left; reflexivity|].
    right. eexists _, _. split; [|split; [exact E | reflexivity]]. reflexivity. }
  destruct (gen_check_mac_value _ _); apply Hins.
Qed.

(** X8 - [create_payment_order] adds one pending order at most and touches
    nothing else: every order already stored is kept as it is, and the
    licenses, the users and the activation links are left alone. *)
Theorem create_order_only_adds (e : env) (u : option string) (b : body) (d : Store.db) :
  let d' := fst (create_payment_order e u b d) in
  (forall k o, Store.orders d !! k = Some o -> Store.orders d' !! k = Some o) /\
  (forall k o, Store.orders d !! k = None -> Store.orders d' !! k = Some o ->
               Order.payment_status o = pending) /\
  Store.licenses d' = Store.licenses d /\
  Store.user_auth d' = Store.user_auth d /\
  Store.license_activations d' = Store.license_activations d.
Proof.
  intros d'. subst d'.
  destruct (create_store_cases e u b d) as [->|(tn & row & Hp & Hfree & ->)].
  - repeat split; auto. intros k o H1 H2. congruence.
  - simpl. repeat split; auto.
    + intros k o Hk. destruct (decide (tn = k)) as [->|Hne]; [congruence|].
      rewrite lookup_insert_ne by exact Hne. exact Hk.
    + intros k o Hk Hk'. destruct (decide (tn = k)) as [->|Hne].
      * rewrite lookup_insert_eq in Hk'. injection Hk' as <-. exact Hp.
      * rewrite lookup_insert_ne in Hk' by exact Hne. congruence.
Qed.

(** X9 - a request that is turned away with 401, 400 or 403 leaves the store
    as it is, and so does every request without an identity, with an
    unknown plan or for the lifetime plan. *)
Theorem rejected_request_changes_nothing
    (e : env) (u : option string) (b : body) (d : Store.db) (code : Z) :
  snd (create_payment_order e u b d) = Rejected code ->
  code <> 500 ->
  fst (create_payment_order e u b d) = d /\ (code = 401 \/ code = 400 \/ code = 403).
Proof.
  unfold create_payment_order.
  destruct u as [uid|]; [|simpl; intros H; injection H as <-; auto].
  destruct (negb (Py.truthy uid)); [simpl; intros H; injection H as <-; auto|].
  destruct (negb (config_complete e)); [simpl; intros H; injection H as <-; congruence|].
  destruct (plan b) as [pl|]; [|simpl; intros H; injection H as <-; auto].
  destruct (negb (Py.truthy pl) || negb (Validate.validate_plan_type pl));
    [simpl; intros H; injection H as <-; auto|].
  destruct (String.eqb pl "lifetime"); [simpl; intros H; injection H as <-; auto|].
  destruct (negb (buyer_fields_ok uid b)); [simpl; intros H; injection H as <-; auto|].
  destruct (gen_check_mac_value _ _); simpl; intros H; [discriminate|].
  injection H as <-. congruence.
Qed.

End OrderServiceMore.

(* ===================================================================== *)
(** * Further properties of the gateway notifications *)
(* ===================================================================== *)

Section WebhookMore.
Import SignatureCodec Webhook Props.

Lemma update_order_frame (k : string) f w (d : Store.db) :
  Store.licenses (Store.update_order k f w d) = Store.licenses d /\
  Store.user_auth (Store.update_order k f w d) = Store.user_auth d /\
  Store.license_activations (Store.update_order k f w d) = Store.license_activations d.
Proof. unfold Store.update_order. destruct (Store.orders d !! k); auto. Qed.

Lemma update_order_other (k k' : string) f w (d : Store.db) :
  k <> k' -> Store.orders (Store.update_order k f w d) !! k' = Store.orders d !! k'.
Proof.
  intros Hne. unfold Store.update_order.
  destruct (Store.orders d !! k); [|reflexivity]. simpl.
  apply lookup_insert_ne. exact Hne.
Qed.

Lemma update_order_none (k k' : string) f w (d : Store.db) :
  Store.orders (Store.update_order k f w d) !! k' = None <-> Store.orders d !! k' = None.
Proof.
  unfold Store.update_order.
  destruct (Store.orders d !! k) eqn:E; [|tauto]. simpl.
  destruct (decide (k = k')) as [->|Hne].
  - rewrite lookup_insert_eq, E. split; discriminate.
  - rewrite lookup_insert_ne by exact Hne. tauto.
Qed.

(** The store a delivery leaves: the one it found, or one [UPDATE] of the
    addressed order, followed or not by the license and user writes of a
    completed payment. *)
Lemma webhook_store_cases (e : env) (r : request) (d : Store.db) :
  let k := get_str "MerchantTradeNo" (params r) in
  fst (ecpay_webhook e r d) = d \/
  (exists f w, fst (ecpay_webhook e r d) = Store.update_order k f w d) \/
  (exists o, Store.orders d !! k = Some o /\
             get_str "RtnCode" (params r) = "1"%string /\
             is_atm_cvs (get_str "PaymentType" (params r)) = false /\
             fst (ecpay_webhook e r d) = mark_paid e (params r) k o d).
Proof.
  intros k. unfold ecpay_webhook. fold k.
  destruct (negb (is_ecpay_ip r) && production e); [left; reflexivity|].
  destruct (negb (verify_ecpay_signature (cfg e) (of_form (params r)))); [left; reflexivity|].
  destruct (String.eqb_spec (get_str "RtnCode" (params r)) "1") as [Hc|Hc]; simpl.
  2:{ right. left. eexists _, _. reflexivity. }
  destruct (Store.orders d !! k) as [o|] eqn:Eo; [|left; reflexivity].
  unfold settle.
  destruct (already_processed o _); [left; reflexivity|].
  destruct (is_atm_cvs (get_str "PaymentType" (params r))) eqn:Ea.
  - rewrite (atm_is_not_credit _ Ea). simpl.
    destruct (bool_decide (Order.payment_status o = pending)); simpl.
    + right. left. unfold store_code. eexists _, _. reflexivity.
    + left. reflexivity.
  - simpl. rewrite orb_false_r.
    destruct (is_credit_linepay _ && _); simpl; [|left; reflexivity].
    right. right. exists o. auto.
Qed.

Lemma mark_paid_frame (e : env) (p : dict string) (k : string) (o : Order.t) (d : Store.db) :
  (forall k', k <> k' -> Store.orders (mark_paid e p k o d) !! k' = Store.orders d !! k') /\
  (forall k', Store.orders (mark_paid e p k o d) !! k' = None <-> Store.orders d !! k' = None) /\
  Store.license_activations (mark_paid e p k o d) = Store.license_activations d.
Proof.
  unfold mark_paid. rewrite !orders_subscribe_user.
  unfold Store.subscribe_user, upsert_license.
  split; [|split].
  - intros k' Hne. simpl. apply update_order_other. exact Hne.
  - intros k'. simpl. apply update_order_none.
  - destruct (Store.user_auth _ !! _); simpl; apply update_order_frame.
Qed.

(** X10 - a delivery only ever writes the order it names: every other order
    is left as it is, no order is created or removed, and the activation
    links are not touched. *)
Theorem webhook_writes_named_order_only (e : env) (r : request) (d : Store.db) (k : string) :
  let d' := fst (ecpay_webhook e r d) in
  (k <> get_str "MerchantTradeNo" (params r) ->
   Store.orders d' !! k = Store.orders d !! k) /\
  (Store.orders d' !! k = None <-> Store.orders d !! k = None) /\
  Store.license_activations d' = Store.license_activations d.
Proof.
  intros d'. subst d'.
  destruct (webhook_store_cases e r d) as [->|[(f & w & ->)|(o & _ & _ & _ & ->)]].
  - tauto.
  - split; [intros Hne; apply update_order_other; congruence|].
    split; [apply update_order_none | apply update_order_frame].
  - destruct (mark_paid_frame e (params r) (get_str "MerchantTradeNo" (params r)) o d)
      as (H1 & H2 & H3).
    split; [intros Hne; apply H1; congruence|]. split; [apply H2 | exact H3].
Qed.

(** X11 - a callback with a result code other than ["1"] grants nothing:
    no license and no user row changes; when it is verified it is
    acknowledged with "1|OK" and the order it names, if stored, is set to
    [failed] with the callback kept as its raw payload. *)
Theorem failure_callback_grants_nothing (e : env) (r : request) (d : Store.db) :
  let k := get_str "MerchantTradeNo" (params r) in
  let d' := fst (ecpay_webhook e r d) in
  get_str "RtnCode" (params r) <> "1"%string ->
  Store.licenses d' = Store.licenses d /\
  Store.user_auth d' = Store.user_auth d /\
  (verified e r = true ->
   snd (ecpay_webhook e r d) = "1|OK"%string /\
   forall o, Store.orders d !! k = Some o ->
     exists o', Store.orders d' !! k = Some o' /\
                Order.payment_status o' = failed /\
                Order.raw_payload o' = Some (params r)).
Proof.
  intros k d' Hc. subst d'.
  split; [|split].
  - destruct (webhook_store_cases e r d) as [->|[(f & w & ->)|(o & _ & H1 & _)]];
      [reflexivity | apply update_order_frame | contradiction].
  - destruct (webhook_store_cases e r d) as [->|[(f & w & ->)|(o & _ & H1 & _)]];
      [reflexivity | apply update_order_frame | contradiction].
  - intros Hv. rewrite (webhook_failure e r d Hv Hc). simpl. split; [reflexivity|].
    intros o Ho. fold k. rewrite (update_order_found _ _ _ _ o Ho). simpl.
    rewrite lookup_insert_eq. eexists. split; [reflexivity|]. simpl. auto.
Qed.



End WebhookMore.

Section ReturnUrlFacts.
Import SignatureCodec Props.


(** X14 - the return-URL handler ignores a replay whatever its result code:
    once an order is paid under a gateway reference, a notification that
    carries this reference changes nothing, be it a success or a failure
    one, signed or not. *)
Theorem return_url_replay_changes_nothing
    (e : env) (p : dict string) (d : Store.db) (o : Order.t) (ref : string) :
  Store.orders d !! get_str "MerchantTradeNo" p = Some o ->
  Order.payment_status o = paid ->
  Order.trade_no o = Some ref ->
  ref <> ""%string ->
  get_str "TradeNo" p = ref ->
  fst (ReturnUrl.ecpay_return_url e p d) = d.
Proof.
  intros Ho Hpaid Href Hne Ht. unfold ReturnUrl.ecpay_return_url.
  destruct (negb (verify_ecpay_signature (cfg e) (of_form p))); [reflexivity|].
  rewrite Ho. unfold Webhook.already_processed. rewrite Href, Ht, Hpaid.
  rewrite String.eqb_refl. rewrite bool_decide_eq_true_2 by reflexivity.
  destruct ref; [contradiction|]. reflexivity.
Qed.



End ReturnUrlFacts.

Section RefundFacts.
Import SignatureCodec.

(** The store after a refund that went through. *)
Lemma refund_success_cases (e : env) (k : string) (a : option Z) (d : Store.db) (r : Z) :
  snd (Refund.process_ecpay_refund e k a d) = Refund.Refunded r ->
  exists o, Store.orders d !! k = Some o /\
            Order.payment_status o = paid /\
            r <= Order.amount o /\
            r = match a with Some x => x | None => Order.amount o end /\
            fst (Refund.process_ecpay_refund e k a d) =
              Store.with_orders (<[k := Refund.set_refunded o]>)
                [OrderStatusSet k paid refunded] d.
Proof.
  unfold Refund.process_ecpay_refund.
  destruct (Store.orders d !! k) as [o|] eqn:Eo; [|discriminate].
  destruct (bool_decide (Order.payment_status o = paid)) eqn:Ep; simpl; [|discriminate].
  apply bool_decide_eq_true_1 in Ep.
  assert (Hamt : forall r',
     match a with Some x => if Order.amount o <? x then None else Some x
                | None => Some (Order.amount o) end = Some r' ->
     r' <= Order.amount o /\ r' = match a with Some x => x | None => Order.amount o end).
  { intros r'. destruct a as [x|].
    - destruct (Z.ltb_spec (Order.amount o) x); [discriminate|].
      intros [= <-]. split; [lia|reflexivity].
    - intros [= <-]. split; [lia|reflexivity]. }
  destruct (match a with Some x => _ | None => _ end) as [r'|]; [|discriminate].
  destruct (Hamt r' eq_refl) as [Hle Heq]. clear Hamt.
  destruct (gen_check_mac_value _ _); [|discriminate].
  destruct (refund_response e) as [[code text]|]; [|discriminate].
  destruct (code =? 200); [|discriminate].
  destruct (Py.contains _ _); [|discriminate].
  simpl. intros [= <-]. exists o.
  rewrite (update_order_found _ _ _ _ o Eo), Ep. auto.
Qed.

Lemma refund_failure_store (e : env) (k : string) (a : option Z) (d : Store.db) :
  (forall r, snd (Refund.process_ecpay_refund e k a d) <> Refund.Refunded r) ->
  fst (Refund.process_ecpay_refund e k a d) = d.
Proof.
  unfold Refund.process_ecpay_refund.
  destruct (Store.orders d !! k) as [o|]; [|reflexivity].
  destruct (negb _); [reflexivity|].
  destruct (match a with Some x => _ | None => _ end) as [r'|]; [|reflexivity].
  destruct (gen_check_mac_value _ _); [|reflexivity].
  destruct (refund_response e) as [[code text]|]; [|reflexivity].
  destruct (code =? 200); [|reflexivity].
  destruct (Py.contains _ _); [|reflexivity].
  simpl. intros H. exfalso. apply (H r'). reflexivity.
Qed.

(** X17 - a refund goes through only for a paid order and never for more
    than the order's amount (the whole amount when none is given); it sets
    the order to [refunded] and changes nothing else: the license granted
    by the payment and the user's subscription flag stay as they are. *)
Theorem refund_needs_paid_order_and_keeps_license
    (e : env) (k : string) (a : option Z) (d : Store.db) (r : Z) :
  let d' := fst (Refund.process_ecpay_refund e k a d) in
  snd (Refund.process_ecpay_refund e k a d) = Refund.Refunded r ->
  exists o,
    Store.orders d !! k = Some o /\
    Order.payment_status o = paid /\
    r <= Order.amount o /\
    (a = None -> r = Order.amount o) /\
    Store.status_of k d' = Some refunded /\
    (forall k', k' <> k -> Store.orders d' !! k' = Store.orders d !! k') /\
    Store.licenses d' = Store.licenses d /\
    Store.user_auth d' = Store.user_auth d.
Proof.
  intros d' H. subst d'.
  destruct (refund_success_cases e k a d r H) as (o & Ho & Hp & Hle & Heq & ->).
  exists o. repeat split; try assumption.
  - intros ->. exact Heq.
  - unfold Store.status_of. simpl. rewrite lookup_insert_eq. reflexivity.
  - intros k' Hne. simpl. apply lookup_insert_ne. congruence.
Qed.

(** X18 - a refund that does not go through, whatever the reason (unknown
    order, order not paid, amount above the order's, unusable secrets, a
    gateway that refuses or cannot be reached), leaves the store as it
    was. *)
Theorem failed_refund_changes_nothing
    (e : env) (k : string) (a : option Z) (d : Store.db) :
  (forall r, snd (Refund.process_ecpay_refund e k a d) <> Refund.Refunded r) ->
  fst (Refund.process_ecpay_refund e k a d) = d.
Proof.
  unfold Refund.process_ecpay_refund.
  destruct (Store.orders d !! k) as [o|]; [|reflexivity].
  destruct (negb _); [reflexivity|].
  destruct (match a with Some x => _ | None => _ end) as [r'|]; [|reflexivity].
  destruct (gen_check_mac_value _ _); [|reflexivity].
  destruct (refund_response e) as [[code text]|]; [|reflexivity].
  destruct (code =? 200); [|reflexivity].
  destruct (Py.contains _ _); [|reflexivity].
  simpl. intros H. exfalso. apply (H r'). reflexivity.
Qed.

(** X19 - an order is refunded at most once: after a refund that went
    through, a further refund of the same order, for any amount and
    whatever the gateway would answer, is refused because of the order's
    status and changes nothing. *)
Theorem refund_is_not_repeatable
    (e e2 : env) (k : string) (a a2 : option Z) (d : Store.db) (r : Z) :
  let d' := fst (Refund.process_ecpay_refund e k a d) in
  snd (Refund.process_ecpay_refund e k a d) = Refund.Refunded r ->
  Refund.process_ecpay_refund e2 k a2 d' = (d', Refund.StatusNotRefundable refunded).
Proof.
  intros d' H. subst d'.
  destruct (refund_success_cases e k a d r H) as (o & Ho & Hp & Hle & Heq & ->).
  unfold Refund.process_ecpay_refund at 1. simpl.
  rewrite lookup_insert_eq. simpl. reflexivity.
Qed.

(** X20 - the refund endpoint answers 200 exactly when the refund went
    through, with the amount refunded; a request without an order id is
    refused with 400, and every 400 leaves the store as it was. *)
Theorem refund_endpoint_status
    (e : env) (b : RefundEndpoint.body) (d : Store.db) :
  let out := RefundEndpoint.refund_order e b d in
  (forall r, snd out = RefundEndpoint.Ok200 r <->
     exists oid, RefundEndpoint.order_id b = Some oid /\ oid <> ""%string /\
       snd (Refund.process_ecpay_refund e oid (RefundEndpoint.refund_amount b) d)
         = Refund.Refunded r) /\
  (snd out = RefundEndpoint.Bad400 -> fst out = d).
Proof.
  intros out. subst out. unfold RefundEndpoint.refund_order.
  destruct (RefundEndpoint.order_id b) as [oid|].
  2:{ split; [|reflexivity]. intros r. split; [discriminate|]. intros (x & Hx & _). discriminate. }
  destruct oid as [|c oid]; simpl.
  { split; [|reflexivity]. intros r. split; [discriminate|].
    intros (x & [= <-] & Hx & _). contradiction. }
  pose proof (refund_failure_store e (String c oid) (RefundEndpoint.refund_amount b) d) as Hf.
  destruct (Refund.process_ecpay_refund e (String c oid) (RefundEndpoint.refund_amount b) d)
    as [d' res] eqn:E.
  simpl in Hf.
  split.
  - intros r. split.
    + intros H. exists (String c oid). split; [reflexivity|]. split; [discriminate|].
      rewrite E. destruct res; simpl in H; try discriminate.
      injection H as ->. reflexivity.
    + intros (x & Hx1 & _ & Hx). injection Hx1 as <-. rewrite E in Hx. simpl in Hx.
      rewrite Hx. reflexivity.
  - destruct res; simpl; try discriminate; intros _; apply Hf; intros r; discriminate.
Qed.

End RefundFacts.

Section RedeemMore.
Import Redeem Props.

(** What the first statement decides. *)
Lemma read_row_cases (e : env) (r : request) (d : Store.db) :
  (exists resp, read_row e r d = Done resp /\
     match resp with LinkExpired _ | RedirectSuccess _ => False | _ => True end /\
     (resp = RedirectLogin -> user_truthy (current_user_id r) = false) /\
     (resp = AlreadyActivated -> user_truthy (current_user_id r) = true)) \/
  (exists t, read_row e r d = MarkExpired t) \/
  (exists row uid,
     read_row e r d = Activate row uid (license_expire_dt e r row) /\
     token_ok (token r) = true /\
     Store.license_activations d !! token r = Some row /\
     Activation.status row <> act_activated /\
     current_user_id r = Some uid /\ Py.truthy uid = true).
Proof.
  unfold read_row, token_ok.
  destruct (Py.truthy (token r)); simpl;
    [|left; eexists; split; [reflexivity|]; repeat split; discriminate].
  destruct ((200 <? Py.len (token r)) || _); simpl;
    [left; eexists; split; [reflexivity|]; repeat split; discriminate|].
  destruct (Store.license_activations d !! token r) as [row|] eqn:Er;
    [|left; eexists; split; [reflexivity|]; repeat split; discriminate].
  destruct (bool_decide (Activation.status row = act_activated)) eqn:Es.
  { left. eexists. split; [reflexivity|]. unfold already_activated_reply, user_truthy.
    destruct (current_user_id r) as [uid|]; [|repeat split; discriminate].
    destruct (Py.truthy uid); [|repeat split; discriminate].
    destruct (Store.user_auth d !! uid) as [u|]; [|repeat split; discriminate].
    destruct (UserAuth.email u); [|repeat split; discriminate].
    destruct (_ && _); repeat split; discriminate. }
  apply bool_decide_eq_false_1 in Es.
  destruct (match stamp_truthy e (Activation.link_expires_at row) with
            | Some x => _ | None => _ end) as [t|].
  { right. left. eexists. reflexivity. }
  unfold user_truthy.
  destruct (current_user_id r) as [uid|];
    [|left; eexists; split; [reflexivity|]; repeat split; discriminate].
  destruct (Py.truthy uid) eqn:Eu;
    [|left; eexists; split; [reflexivity|]; repeat split; discriminate].
  right. right. exists row, uid. repeat split; first [reflexivity | assumption].
Qed.

(** The three runs of the endpoint. *)
Lemma redeem_cases (e : env) (r : request) (d : Store.db) :
  (exists resp, verify_license_token e r d = (Done resp, d) /\
     match resp with LinkExpired _ | RedirectSuccess _ => False | _ => True end /\
     (resp = RedirectLogin -> user_truthy (current_user_id r) = false) /\
     (resp = AlreadyActivated -> user_truthy (current_user_id r) = true)) \/
  (exists t, verify_license_token e r d = (Done (LinkExpired t), mark_expired (token r) d)) \/
  (exists row uid,
     token_ok (token r) = true /\
     Store.license_activations d !! token r = Some row /\
     Activation.status row <> act_activated /\
     current_user_id r = Some uid /\ Py.truthy uid = true /\
     verify_license_token e r d =
       (Done (RedirectSuccess (Activation.plan_type row)),
        grant e r row uid (license_expire_dt e r row)
          (Store.with_activations (<[token r := set_activated (clock r) uid row]>)
             [ActivationStatusSet (token r) (Activation.status row) act_activated] d))).
Proof.
  unfold verify_license_token. simpl.
  destruct (read_row_cases e r d) as
    [(resp & -> & H)|[(t & ->)|(row & uid & -> & Htok & Hrow & Hst & Hu & Hut)]].
  - left. exists resp. split; [reflexivity | exact H].
  - right. left. exists t. reflexivity.
  - right. right. exists row, uid. simpl. unfold conditional_update. rewrite Hrow.
    rewrite bool_decide_eq_false_2 by exact Hst. simpl. auto 10.
Qed.


(** X22 - a visit without a logged-in user never grants anything: it is
    never redirected to the success page, the licenses, the users and the
    orders stay as they are, and no link becomes activated (an overdue link
    is still marked expired). *)
Theorem anonymous_visit_grants_nothing (e : env) (r : request) (d : Store.db) :
  let d' := snd (verify_license_token e r d) in
  user_truthy (current_user_id r) = false ->
  (forall pl, fst (verify_license_token e r d) <> Done (RedirectSuccess pl)) /\
  fst (verify_license_token e r d) <> Done AlreadyActivated /\
  Store.licenses d' = Store.licenses d /\
  Store.user_auth d' = Store.user_auth d /\
  Store.orders d' = Store.orders d /\
  (forall tok row, Store.license_activations d' !! tok = Some row ->
     Activation.status row = act_activated ->
     Store.license_activations d !! tok = Some row).
Proof.
  intros d' Hanon. subst d'.
  destruct (redeem_cases e r d) as
    [(resp & -> & H & _ & Ha)|[(t & ->)|(row & uid & _ & _ & _ & Hu & Hut & _)]].
  - simpl. split; [intros pl [= ->]; exact H|].
    split; [intros [= ->]; rewrite Ha in Hanon by reflexivity; discriminate|].
    auto.
  - simpl. split; [discriminate|]. split; [discriminate|].
    unfold mark_expired. destruct (Store.license_activations d !! token r) as [cur|] eqn:Ec;
      simpl; [|auto].
    repeat split. intros tok row Hrow Hst.
    destruct (decide (token r = tok)) as [<-|Hne].
    + rewrite lookup_insert_eq in Hrow. injection Hrow as <-. discriminate.
    + rewrite lookup_insert_ne in Hrow by exact Hne. exact Hrow.
  - unfold user_truthy in Hanon. rewrite Hu, Hut in Hanon. discriminate.
Qed.

(** X23 - a link is redeemed once: after a visit that was redirected to
    the success page, every later visit with the same token, by anyone and
    at any time, is answered that the link is used or already activated,
    and writes nothing. *)
Theorem redeemed_link_is_spent
    (e e2 : env) (r r2 : request) (d : Store.db) (pl : string) :
  let d' := snd (verify_license_token e r d) in
  fst (verify_license_token e r d) = Done (RedirectSuccess pl) ->
  token r2 = token r ->
  snd (verify_license_token e2 r2 d') = d' /\
  (fst (verify_license_token e2 r2 d') = Done LinkUsed \/
   fst (verify_license_token e2 r2 d') = Done AlreadyActivated).
Proof.
  intros d' Hok Htok. subst d'.
  destruct (redeem_cases e r d) as
    [(resp & Hv & H & _)|[(t & Hv)|(row & uid & Hfmt & Hrow & Hst & Hu & Hut & Hv)]];
    rewrite Hv in *; simpl in Hok.
  - injection Hok as ->. contradiction.
  - discriminate.
  - simpl. clear Hok Hv.
    match goal with |- context [grant e r row uid ?x ?dd] =>
      set (d1 := dd); set (d2 := grant e r row uid x d1);
      pose proof (grant_activations e r row uid x d1) as Ha; fold d2 in Ha
    end.
    assert (Hact : Store.license_activations d2 !! token r2 =
                   Some (set_activated (clock r) uid row)).
    { rewrite Ha, Htok. unfold d1. simpl. apply lookup_insert_eq. }
    rewrite <- Htok in Hfmt.
    assert (Hread : read_row e2 r2 d2 =
                    Done (already_activated_reply r2 (set_activated (clock r) uid row) d2)).
    { unfold read_row. unfold token_ok in Hfmt.
      apply andb_prop in Hfmt. destruct Hfmt as [H1 H2]. rewrite H1.
      apply negb_true_iff in H2. rewrite H2. simpl. rewrite Hact. reflexivity. }
    unfold verify_license_token. simpl. rewrite Hread. simpl.
    split; [reflexivity|].
    unfold already_activated_reply.
    destruct (current_user_id r2) as [u2|]; [|auto].
    destruct (Py.truthy u2); [|auto].
    destruct (Store.user_auth d2 !! u2) as [ua|]; [|auto].
    destruct (UserAuth.email ua); [|auto].
    destruct (_ && _); auto.
Qed.

Lemma grant_license_row (e : env) (r : request) (row : Activation.t) (uid : string)
    (expires : Z) (d : Store.db) :
  exists lic, Store.licenses (grant e r row uid expires d) !! uid = Some lic /\
              License.status lic = "active"%string /\
              License.source lic = Some (Activation.channel row) /\
              License.expires_at lic = expires /\
              License.tier lic = Activation.plan_type row.
Proof.
  unfold grant, record_order, ensure_subscribed, Store.subscribe_user, upsert_license.
  repeat match goal with
         | |- context [match ?x with _ => _ end] => destruct x; simpl
         end;
    rewrite lookup_insert_eq; eexists; split; try reflexivity; simpl; auto.
Qed.

Lemma grant_user_row (e : env) (r : request) (row : Activation.t) (uid : string)
    (expires : Z) (d : Store.db) :
  exists ua, Store.user_auth (grant e r row uid expires d) !! uid = Some ua /\
             UserAuth.is_subscribed ua = true.
Proof.
  unfold grant, record_order, ensure_subscribed, Store.subscribe_user, upsert_license.
  simpl.
  destruct (Store.user_auth d !! uid) eqn:Eu; simpl;
    destruct (Store.orders d !! Activation.order_id row); simpl;
    rewrite lookup_insert_eq; eexists; split; reflexivity.
Qed.

Lemma grant_order_row (e : env) (r : request) (row : Activation.t) (uid : string)
    (expires : Z) (d : Store.db) :
  match Store.orders d !! Activation.order_id row with
  | Some _ => Store.orders (grant e r row uid expires d) = Store.orders d
  | None =>
      exists o, Store.orders (grant e r row uid expires d) !! Activation.order_id row = Some o /\
                Order.payment_status o = paid /\
                Order.user_id o = uid /\
                Order.amount o = Activation.amount row /\
                Order.expires_at o = Some expires
  end.
Proof.
  unfold grant, record_order, ensure_subscribed, Store.subscribe_user, upsert_license.
  simpl.
  destruct (Store.user_auth d !! uid) eqn:Eu; simpl;
    destruct (Store.orders d !! Activation.order_id row); simpl; try reflexivity;
    rewrite lookup_insert_eq; eexists; (split; [reflexivity|]); simpl; auto.
Qed.

(** X24 - what a successful redemption writes: the user's license is
    active, carries the channel as its source and ends seven days after
    the visit for a trial; the user is subscribed, the row being created
    when missing; and a paid order is recorded under the channel's order
    id unless an order of that id exists, which is then left as it is. *)
Theorem redemption_effects (e : env) (r : request) (d : Store.db) (pl : string) :
  let d' := snd (verify_license_token e r d) in
  fst (verify_license_token e r d) = Done (RedirectSuccess pl) ->
  exists row uid lic ua,
    Store.license_activations d !! token r = Some row /\
    current_user_id r = Some uid /\
    pl = Activation.plan_type row /\
    Store.licenses d' !! uid = Some lic /\
    License.status lic = "active"%string /\
    License.source lic = Some (Activation.channel row) /\
    License.expires_at lic = license_expire_dt e r row /\
    (pl = "trial"%string -> License.expires_at lic = clock r + timedelta_days 7) /\
    Store.user_auth d' !! uid = Some ua /\
    UserAuth.is_subscribed ua = true /\
    match Store.orders d !! Activation.order_id row with
    | Some _ => Store.orders d' = Store.orders d
    | None =>
        exists o, Store.orders d' !! Activation.order_id row = Some o /\
                  Order.payment_status o = paid /\
                  Order.user_id o = uid /\
                  Order.amount o = Activation.amount row /\
                  Order.expires_at o = Some (License.expires_at lic)
    end.
Proof.
  intros d' Hok. subst d'.
  destruct (redeem_cases e r d) as
    [(resp & Hv & H & _)|[(t & Hv)|(row & uid & Hfmt & Hrow & Hst & Hu & Hut & Hv)]];
    rewrite Hv in *; simpl in Hok.
  - injection Hok as ->. contradiction.
  - discriminate.
  - injection Hok as Hpl. subst pl. simpl. clear Hv.
    match goal with |- context [grant e r row uid ?x ?dd] =>
      set (d1 := dd);
      destruct (grant_license_row e r row uid x d1) as (lic & Hl & Hs & Hsrc & Hx & _);
      destruct (grant_user_row e r row uid x d1) as (ua & Hua & Hsub);
      pose proof (grant_order_row e r row uid x d1) as Hord
    end.
    exists row, uid, lic, ua.
    repeat (split; [first [reflexivity | assumption]|]).
    split.
    { intros Hp. rewrite Hx. unfold license_expire_dt. rewrite Hp. reflexivity. }
    split; [exact Hua|]. split; [exact Hsub|].
    change (Store.orders d1) with (Store.orders d) in Hord.
    rewrite Hx. exact Hord.
Qed.

End RedeemMore.

Section IssueFacts.
Import Issue.

(** What the loop over the addresses keeps and adds. *)
Lemma issue_all_inv (w : world) (b : body) (pl : string) (todo : list string) :
  forall (i : nat) (d : Store.db),
  let '(d', links, errors) := issue_all w b pl i todo d in
  Store.orders d' = Store.orders d /\
  Store.licenses d' = Store.licenses d /\
  Store.user_auth d' = Store.user_auth d /\
  Store.journal d' = Store.journal d /\
  (forall tok row, Store.license_activations d !! tok = Some row ->
                   Store.license_activations d' !! tok = Some row) /\
  (links = [] -> d' = d) /\
  (length links + length errors = length todo)%nat /\
  Forall (fun l =>
            Store.license_activations d !! activation_token l = None /\
            Store.license_activations d' !! activation_token l =
              Some (new_row w b pl (link_email l)) /\
            In (link_email l) todo /\
            link_plan_type l = pl /\
            link_license_expires_at l = license_expires_at w pl /\
            link_link_expires_at l = link_expires_at w /\
            link_url l = (frontend_url w +:+ "/?token=" +:+ activation_token l)%string) links.
Proof.
  induction todo as [|a todo IH]; intros i d; simpl.
  { repeat split; auto. }
  destruct (Store.license_activations d !! token_urlsafe w i) as [old|] eqn:Eold.
  - specialize (IH (S i) d).
    destruct (issue_all w b pl (S i) todo d) as [[d' links] errors].
    destruct IH as (H1 & H2 & H3 & H4 & H5 & H6 & H7 & H8).
    repeat split; auto.
    + simpl. lia.
    + eapply Forall_impl; [exact H8|]. simpl. intros l Hl. tauto.
  - set (d1 := Store.with_activations _ [] d).
    specialize (IH (S i) d1).
    destruct (issue_all w b pl (S i) todo d1) as [[d' links] errors].
    destruct IH as (H1 & H2 & H3 & H4 & H5 & H6 & H7 & H8).
    assert (Hkeep : forall tok row, Store.license_activations d !! tok = Some row ->
                                    Store.license_activations d1 !! tok = Some row).
    { intros tok row Hrow. unfold d1. simpl.
      rewrite lookup_insert_ne; [exact Hrow|]. intros <-. congruence. }
    repeat split; auto.
    + rewrite H4. unfold d1. simpl. apply app_nil_r.
    + discriminate.
    + simpl. lia.
    + constructor.
      * simpl. split; [exact Eold|]. split; [|auto 10].
        apply H5. unfold d1. simpl. apply lookup_insert_eq.
      * eapply Forall_impl; [exact H8|].
        intros l (Hl1 & Hl2 & Hl3 & Hl4).
        split; [|tauto].
        destruct (Store.license_activations d !! activation_token l) as [row|] eqn:Er;
          [|reflexivity].
        rewrite (Hkeep _ _ Er) in Hl1. discriminate.
Qed.

Lemma issue_cases (w : world) (r : request) (d : Store.db) :
  (fst (verify_license_webhook w r d) = d /\
   forall links errors, snd (verify_license_webhook w r d) <> Issued links errors) \/
  (exists b todo links errors,
     authorized w r = true /\
     json r = Some b /\ email_list b = Some todo /\
     issue_all w b (resolve_plan b) O todo d = (fst (verify_license_webhook w r d), links, errors) /\
     snd (verify_license_webhook w r d) = Issued links errors).
Proof.
  unfold verify_license_webhook.
  destruct (authorized w r) eqn:Ea; simpl; [|left; split; [reflexivity|discriminate]].
  destruct (json r) as [b|] eqn:Ej; [|left; split; [reflexivity|discriminate]].
  destruct (order_id b) as [oid|]; [|left; split; [reflexivity|discriminate]].
  destruct (negb (Py.truthy oid)); [left; split; [reflexivity|discriminate]|].
  destruct (email_list b) as [todo|] eqn:Ee; [|left; split; [reflexivity|discriminate]].
  pose proof (issue_all_inv w b (resolve_plan b) todo O d) as Hinv.
  destruct (issue_all w b (resolve_plan b) O todo d) as [[d' links] errors] eqn:Ei.
  destruct links as [|l links].
  - left. destruct Hinv as (_ & _ & _ & _ & _ & H6 & _). simpl.
    split; [apply H6; reflexivity | discriminate].
  - right. exists b, todo, (l :: links), errors. simpl.
    repeat split; first [reflexivity | assumption].
Qed.

(** X25 - the issuing endpoint stores nothing unless it answers with
    links: a request with a wrong secret (when one is configured), without
    an order id or without an address, and a run in which every insert
    failed, leave the store as it was; a configured secret that the caller
    does not present is answered 401. *)
Theorem issue_refusal_stores_nothing (w : world) (r : request) (d : Store.db) :
  ((forall links errors, snd (verify_license_webhook w r d) <> Issued links errors) ->
   fst (verify_license_webhook w r d) = d) /\
  (WEBHOOK_SECRET w <> ""%string -> provided_secret r <> WEBHOOK_SECRET w ->
   verify_license_webhook w r d = (d, Unauthorized)).
Proof.
  split.
  - intros H. destruct (issue_cases w r d) as [[Hd _]|(b & todo & links & errors & _ & _ & _ & _ & Hs)];
      [exact Hd | exfalso; exact (H _ _ Hs)].
  - intros Hsec Hne. unfold verify_license_webhook, authorized.
    apply String.eqb_neq in Hne. rewrite Hne.
    destruct (WEBHOOK_SECRET w); [contradiction|]. reflexivity.
Qed.

(** X26 - every link the endpoint returns stands for a row it has just
    inserted under a token that was free: the row is pending, is the
    address's, can be redeemed for seven days, and carries the plan's
    license end (the sentinel for [lifetime], 7 days for [trial], 365
    otherwise); each address gets a link or an error; rows that existed
    and the other tables are untouched. *)
Theorem issued_links_are_pending_rows
    (w : world) (r : request) (d : Store.db) (links : list activation_link)
    (errors : list string) :
  let d' := fst (verify_license_webhook w r d) in
  snd (verify_license_webhook w r d) = Issued links errors ->
  exists b todo,
    json r = Some b /\ email_list b = Some todo /\
    (length links + length errors = length todo)%nat /\
    Store.orders d' = Store.orders d /\
    Store.licenses d' = Store.licenses d /\
    Store.user_auth d' = Store.user_auth d /\
    (forall tok row, Store.license_activations d !! tok = Some row ->
                     Store.license_activations d' !! tok = Some row) /\
    Forall (fun l =>
      Store.license_activations d !! activation_token l = None /\
      exists row,
        Store.license_activations d' !! activation_token l = Some row /\
        Activation.status row = act_pending /\
        Activation.email row = link_email l /\
        Activation.plan_type row = resolve_plan b /\
        link_plan_type l = resolve_plan b /\
        Activation.link_expires_at row = Some (clock w + timedelta_days 7) /\
        Activation.license_expires_at row = Some (link_license_expires_at l) /\
        link_license_expires_at l =
          (if String.eqb (resolve_plan b) "lifetime" then LIFETIME_SENTINEL
           else if String.eqb (resolve_plan b) "trial" then clock w + timedelta_days 7
           else clock w + timedelta_days 365)) links.
Proof.
  intros d' Hs. subst d'.
  destruct (issue_cases w r d) as [[_ Hn]|(b & todo & links' & errors' & _ & Hj & He & Hi & Hs')].
  { exfalso. exact (Hn _ _ Hs). }
  rewrite Hs in Hs'. injection Hs' as <- <-.
  pose proof (issue_all_inv w b (resolve_plan b) todo O d) as Hinv.
  rewrite Hi in Hinv. destruct Hinv as (H1 & H2 & H3 & _ & H5 & _ & H7 & H8).
  exists b, todo. repeat split; auto.
  eapply Forall_impl; [exact H8|]. simpl.
  intros l (Hl1 & Hl2 & _ & Hl4 & Hl5 & _).
  split; [exact Hl1|]. eexists. split; [exact Hl2|]. simpl.
  rewrite Hl5. repeat split; auto.
Qed.

End IssueFacts.

Section IssueThenRedeem.
Import Redeem Props.




End IssueThenRedeem.

Section ValidateFacts.
Import Validate.

Lemma rev_string_append (a b acc : string) :
  Py.rev_string acc (a +:+ b) = Py.rev_string (Py.rev_string acc a) b.
Proof.
  revert acc. induction a as [|c a IH]; intros acc; [reflexivity|].
  rewrite append_cons. simpl. apply IH.
Qed.

Lemma chop_newline_appended (s : string) :
  Py.chop_newline (s +:+ String (Py.chr 10) EmptyString) = s.
Proof.
  unfold Py.chop_newline. rewrite rev_string_append. simpl.
  apply rev_string_involutive.
Qed.

Lemma chop_newline_clean (q : ascii -> bool) (s : string) :
  q (Py.chr 10) = false -> Py.forallb_string q s = true -> Py.chop_newline s = s.
Proof.
  intros Hq Hs. destruct (chop_newline_cases s) as [E|E]; [exact E|].
  rewrite E in Hs. rewrite forallb_append in Hs.
  apply andb_prop in Hs. destruct Hs as [_ Hs]. simpl in Hs.
  rewrite Hq in Hs. discriminate.
Qed.

(** X28 - the ids [validate_user_id] accepts: one to fifty characters, all
    of them letters, digits, [_] or [-], except that the last one may be a
    line feed (the [$] of the pattern matches before a final newline). *)
Theorem accepted_user_ids (s : string) :
  validate_user_id s = true <->
  exists body,
    body <> EmptyString /\
    Py.forallb_string id_char body = true /\
    (s = body \/ s = (body +:+ String (Py.chr 10) EmptyString)%string) /\
    Py.len s <= 50.
Proof.
  unfold validate_user_id, Py.match_plus. split.
  - intros H. apply andb_prop in H. destruct H as [H H3].
    apply andb_prop in H. destruct H as [H1 H2].
    apply andb_prop in H3. destruct H3 as [H3 H4].
    exists (Py.chop_newline s). split; [|split; [exact H4|split]].
    + intros E. rewrite E in H3. discriminate.
    + destruct (chop_newline_cases s) as [E|E]; [left; symmetry; exact E | right; exact E].
    + apply negb_true_iff in H2. apply Z.ltb_ge in H2. exact H2.
  - intros (body & Hne & Hall & Hs & Hlen).
    assert (Hchop : Py.chop_newline s = body).
    { destruct Hs as [->| ->]; [|apply chop_newline_appended].
      apply (chop_newline_clean id_char); [reflexivity | exact Hall]. }
    rewrite Hchop, Hall.
    apply Z.ltb_ge in Hlen. rewrite Hlen.
    assert (Ht : Py.truthy body = true) by (destruct body; [contradiction | reflexivity]).
    rewrite Ht.
    destruct Hs as [->| ->]; [rewrite Ht; reflexivity|].
    destruct body; [contradiction | reflexivity].
Qed.

End ValidateFacts.


(* ===================================================================== *)
(** * The further properties on concrete requests *)
(* ===================================================================== *)

Section OnMoreSamples.
Import SignatureCodec Props Sample Sample2.

Lemma sign_ignores_mac_field_witness :
  gen_check_mac_value secrets
    (dict_set "CheckMacValue" (VStr "0000") (of_form (Webhook.params success_delivery)))
  = gen_check_mac_value secrets (of_form (Webhook.params success_delivery)).
Proof.
  apply (sign_ignores_mac_field secrets (VStr "0000")
           (of_form (Webhook.params success_delivery))).
  vm_compute. repeat constructor; simpl; intuition discriminate.
Defined.

Lemma verify_accepts_own_mac_witness :
  verify_ecpay_signature secrets
    (dict_set "CheckMacValue"
       (VStr (default EmptyString (gen_check_mac_value secrets fields_1))) fields_1) = true.
Proof.
  apply (verify_accepts_own_mac secrets fields_1).
  - vm_compute. repeat constructor; simpl; intuition discriminate.
  - vm_compute. reflexivity.
Defined.

Lemma unusable_secrets_fail_witness :
  gen_check_mac_value (Config (Some "   ") (Some "EkRm7iFT261dpevs")) fields_1 = None /\
  verify_ecpay_signature (Config (Some "   ") (Some "EkRm7iFT261dpevs")) fields_1 = false.
Proof.
  apply (unusable_secrets_fail (Config (Some "   ") (Some "EkRm7iFT261dpevs")) fields_1).
  left. vm_compute. reflexivity.
Defined.

Lemma none_values_not_signed_witness :
  gen_check_mac_value secrets
    ([("MerchantID", VStr "3002607")] ++ ("Remark", VNone) :: [("TotalAmount", VInt 3990)])
  = gen_check_mac_value secrets
      ([("MerchantID", VStr "3002607")] ++ [("TotalAmount", VInt 3990)]).
Proof.
  apply (none_values_not_signed secrets "Remark"
           [("MerchantID", VStr "3002607")] [("TotalAmount", VInt 3990)]).
  vm_compute. repeat constructor; simpl; intuition discriminate.
Defined.

Lemma mac_is_64_upper_hex_witness :
  String.length (default EmptyString (gen_check_mac_value secrets fields_1)) = 64%nat /\
  Py.forallb_string upper_hex (default EmptyString (gen_check_mac_value secrets fields_1)) = true.
Proof.
  apply (mac_is_64_upper_hex secrets fields_1). vm_compute. reflexivity.
Defined.

Lemma order_id_within_gateway_limit_witness :
  exists trade_no,
    dict_get "MerchantTradeNo"
      (form_data (OrderService.create_payment_order e0 (Some "user_ab12"%string)
                    (buyer "yearly" None) empty_db))
      = Some (VStr trade_no) /\
    String.prefix "RM" trade_no = true /\
    (String.length trade_no <= 18)%nat.
Proof.
  apply (order_id_within_gateway_limit e0 (Some "user_ab12"%string)
           (buyer "yearly" None) empty_db).
  vm_compute. reflexivity.
Defined.

Lemma checkout_form_verifies_witness :
  verify_ecpay_signature (cfg e0)
    (form_data (OrderService.create_payment_order e0 (Some "user_ab12"%string)
                  (buyer "yearly" None) empty_db)) = true.
Proof.
  apply (checkout_form_verifies e0 (Some "user_ab12"%string) (buyer "yearly" None) empty_db).
  vm_compute. reflexivity.
Defined.

Lemma rejected_request_changes_nothing_witness :
  fst (OrderService.create_payment_order e0 None (buyer "yearly" None) pending_db) = pending_db /\
  (401 = 401 \/ 401 = 400 \/ 401 = 403).
Proof.
  apply (rejected_request_changes_nothing e0 None (buyer "yearly" None) pending_db 401).
  - vm_compute. reflexivity.
  - lia.
Defined.

Lemma failure_callback_grants_nothing_witness :
  Store.licenses (fst (Webhook.ecpay_webhook e0 failure_delivery pending_db))
    = Store.licenses pending_db /\
  Store.user_auth (fst (Webhook.ecpay_webhook e0 failure_delivery pending_db))
    = Store.user_auth pending_db.
Proof.
  assert (Hc : get_str "RtnCode" (Webhook.params failure_delivery) <> "1"%string).
  { vm_compute. intros H. discriminate H. }
  destruct (failure_callback_grants_nothing e0 failure_delivery pending_db Hc) as (H1 & H2 & _).
  split; [exact H1 | exact H2].
Defined.



Lemma return_url_replay_changes_nothing_witness :
  fst (ReturnUrl.ecpay_return_url e0 failure_replay paid_db) = paid_db.
Proof.
  apply (return_url_replay_changes_nothing e0 failure_replay paid_db
           (order_of "yearly" 3990 paid (Some gateway_ref)) gateway_ref);
    try (vm_compute; reflexivity).
  vm_compute. intros H. discriminate H.
Defined.


Lemma refund_needs_paid_order_and_keeps_license_witness :
  exists o,
    Store.orders paid_db !! order_id = Some o /\
    Order.payment_status o = paid /\
    3990 <= Order.amount o /\
    Store.status_of order_id (fst (Refund.process_ecpay_refund e_refund order_id None paid_db))
      = Some refunded /\
    Store.licenses (fst (Refund.process_ecpay_refund e_refund order_id None paid_db))
      = Store.licenses paid_db.
Proof.
  destruct (refund_needs_paid_order_and_keeps_license e_refund order_id None paid_db 3990)
    as (o & H1 & H2 & H3 & _ & H5 & _ & H7 & _).
  - vm_compute. reflexivity.
  - exists o. repeat split; assumption.
Defined.

Lemma failed_refund_changes_nothing_witness :
  fst (Refund.process_ecpay_refund e0 order_id None paid_db) = paid_db.
Proof.
  apply (failed_refund_changes_nothing e0 order_id None paid_db).
  intros r. vm_compute. intros H. discriminate H.
Defined.

Lemma refund_is_not_repeatable_witness :
  Refund.process_ecpay_refund e_refund order_id (Some 100)
    (fst (Refund.process_ecpay_refund e_refund order_id None paid_db))
  = (fst (Refund.process_ecpay_refund e_refund order_id None paid_db),
     Refund.StatusNotRefundable refunded).
Proof.
  apply (refund_is_not_repeatable e_refund e_refund order_id None (Some 100) paid_db 3990).
  vm_compute. reflexivity.
Defined.

Lemma anonymous_visit_grants_nothing_witness :
  Store.licenses (snd (Redeem.verify_license_token e0 (Redeem.Request "tok-1" None 50)
                         (db_link 100)))
    = Store.licenses (db_link 100) /\
  Store.orders (snd (Redeem.verify_license_token e0 (Redeem.Request "tok-1" None 50)
                       (db_link 100)))
    = Store.orders (db_link 100).
Proof.
  destruct (anonymous_visit_grants_nothing e0 (Redeem.Request "tok-1" None 50) (db_link 100))
    as (_ & _ & H1 & _ & H2 & _).
  - reflexivity.
  - split; [exact H1 | exact H2].
Defined.

Lemma redeemed_link_is_spent_witness :
  snd (Redeem.verify_license_token e1 (visit "carol" 60)
         (snd (Redeem.verify_license_token e0 (visit "bob" 50) (db_link 100))))
    = snd (Redeem.verify_license_token e0 (visit "bob" 50) (db_link 100)) /\
  (fst (Redeem.verify_license_token e1 (visit "carol" 60)
          (snd (Redeem.verify_license_token e0 (visit "bob" 50) (db_link 100))))
     = Redeem.Done Redeem.LinkUsed \/
   fst (Redeem.verify_license_token e1 (visit "carol" 60)
          (snd (Redeem.verify_license_token e0 (visit "bob" 50) (db_link 100))))
     = Redeem.Done Redeem.AlreadyActivated).
Proof.
  apply (redeemed_link_is_spent e0 e1 (visit "bob" 50) (visit "carol" 60) (db_link 100)
           "yearly"); vm_compute; reflexivity.
Defined.

Lemma redemption_effects_witness :
  exists lic ua,
    Store.licenses (snd (Redeem.verify_license_token e0 (visit "bob" 50) (db_link 100)))
      !! "bob"%string = Some lic /\
    License.status lic = "active"%string /\
    License.source lic = Some "course"%string /\
    Store.user_auth (snd (Redeem.verify_license_token e0 (visit "bob" 50) (db_link 100)))
      !! "bob"%string = Some ua /\
    UserAuth.is_subscribed ua = true.
Proof.
  destruct (redemption_effects e0 (visit "bob" 50) (db_link 100) "yearly")
    as (row & uid & lic & ua & Hrow & Hu & _ & Hl & Hs & Hsrc & _ & _ & Hua & Hsub & _).
  - vm_compute. reflexivity.
  - injection Hu as <-.
    assert (Er : row = link 100).
    { assert (H : Store.license_activations (db_link 100)
                    !! Redeem.token (visit "bob" 50) = Some (link 100))
        by (vm_compute; reflexivity).
      rewrite H in Hrow. injection Hrow as <-. reflexivity. }
    subst row. exists lic, ua. repeat split; assumption.
Defined.

Lemma issued_links_are_pending_rows_witness :
  exists b todo,
    Issue.json (signed_issue course_sale) = Some b /\
    Issue.email_list b = Some todo /\
    (length (issued_links (Issue.verify_license_webhook partner (signed_issue course_sale)
                             empty_db))
     + length (issued_errors (Issue.verify_license_webhook partner (signed_issue course_sale)
                                empty_db)) = length todo)%nat.
Proof.
  destruct (issued_links_are_pending_rows partner (signed_issue course_sale) empty_db
              (issued_links (Issue.verify_license_webhook partner (signed_issue course_sale)
                               empty_db))
              (issued_errors (Issue.verify_license_webhook partner (signed_issue course_sale)
                                empty_db)))
    as (b & todo & H1 & H2 & H3 & _).
  - vm_compute. reflexivity.
  - exists b, todo. repeat split; assumption.
Defined.


End OnMoreSamples.
